(** * hex-engine: components, canvas scenes, hit-testing, keyboard and Tiled

    A shallow embedding of

    - [packages/engine/src/Component.ts] ([BaseComponent] and [Canvas]),
    - [packages/2d/src/Hooks/useEntitiesAtPoint.ts],
    - [packages/2d/src/Components/Keyboard.ts],
    - [packages/2d/src/Components/Tiled.ts],

    together with the properties the specification states about them.
    JavaScript objects compared by identity ([Scene], [Entity]) are
    references; [Set]s are [gset]s; a call that may [throw] returns a
    [completion]. *)

From Stdlib Require Import ZArith String Ascii List Bool Lia.
From stdpp Require Import base decidable countable gmap strings list.

Local Open Scope Z_scope.
Local Open Scope list_scope.
Local Set Warnings "-register-all,-clear-no-such-hyp".

(** ** Completions

    A JavaScript call either returns a value or throws.  [Throw] carries
    the message of the [Error]. *)

Inductive completion (A : Type) : Type :=
| Normal (a : A)
| Throw (message : string).
Arguments Normal {A} a.
Arguments Throw {A} message.

#[global] Instance completion_ret : MRet completion := fun A a => Normal a.

#[global] Instance completion_bind : MBind completion :=
  fun A B k c =>
    match c with
    | Normal a => k a
    | Throw m => Throw m
    end.

Definition raises {A : Type} (c : completion A) : Prop :=
  exists m, c = Throw m.

Definition returns {A : Type} (c : completion A) : Prop :=
  exists a, c = Normal a.

(** ** Component.ts: [BaseComponent] *)

Module Component.

(** The hooks a component exposes to subclasses.  [fired] below records
    each invocation, in order. *)
Inductive hook (Entity : Type) : Type :=
| OnEntityReceived (e : option Entity)
| OnEnabled
| OnDisabled.
Arguments OnEntityReceived {Entity} e.
Arguments OnEnabled {Entity}.
Arguments OnDisabled {Entity}.

Definition is_OnEnabled {Entity} (h : hook Entity) : bool :=
  match h with OnEnabled => true | _ => false end.

Definition is_OnDisabled {Entity} (h : hook Entity) : bool :=
  match h with OnDisabled => true | _ => false end.

Section BaseComponent.
(** [Entity] objects, component classes and their instances live in
    [Entity.ts]; [Entity_getComponent] is the entity's typed lookup,
    which answers with an instance or [null]. *)
Context {Entity Class Instance : Type}.
Variable Entity_getComponent : Entity -> Class -> option Instance.

(** Behaviour-specific state of a subclass, opaque to the base class,
    and the bodies a subclass gives to the hooks.  In [BaseComponent]
    itself every body is empty. *)
Context {S : Type}.
Variable onEntityReceived_body : option Entity -> S -> S.
Variable onEnabled_body : S -> S.
Variable onDisabled_body : S -> S.
Variable update_body : Z -> S -> S.
Variable draw_body : S -> S.

Record BaseComponent : Type := mkComponent {
  entity : option Entity;
  isEnabled : bool;
  own : S;
  fired : list (hook Entity)
}.

(** [this.isEnabled = config.isEnabled ?? true] *)
Definition constructor (config_isEnabled : option bool) (s : S)
  : BaseComponent :=
  {| entity := None;
     isEnabled := match config_isEnabled with
                  | Some b => b
                  | None => true
                  end;
     own := s;
     fired := [] |}.

Definition onEntityReceived (e : option Entity) (c : BaseComponent)
  : BaseComponent :=
  {| entity := entity c; isEnabled := isEnabled c;
     own := onEntityReceived_body e (own c);
     fired := fired c ++ [OnEntityReceived e] |}.

Definition onEnabled (c : BaseComponent) : BaseComponent :=
  {| entity := entity c; isEnabled := isEnabled c;
     own := onEnabled_body (own c);
     fired := fired c ++ [OnEnabled] |}.

Definition onDisabled (c : BaseComponent) : BaseComponent :=
  {| entity := entity c; isEnabled := isEnabled c;
     own := onDisabled_body (own c);
     fired := fired c ++ [OnDisabled] |}.

Definition _receiveEntity (e : option Entity) (c : BaseComponent)
  : BaseComponent :=
  onEntityReceived e
    {| entity := e; isEnabled := isEnabled c;
       own := own c; fired := fired c |}.

Definition enable (c : BaseComponent) : BaseComponent :=
  onEnabled
    {| entity := entity c; isEnabled := true;
       own := own c; fired := fired c |}.

Definition disable (c : BaseComponent) : BaseComponent :=
  onDisabled
    {| entity := entity c; isEnabled := false;
       own := own c; fired := fired c |}.

Definition update (delta : Z) (c : BaseComponent) : BaseComponent :=
  {| entity := entity c; isEnabled := isEnabled c;
     own := update_body delta (own c); fired := fired c |}.

Definition draw (c : BaseComponent) : BaseComponent :=
  {| entity := entity c; isEnabled := isEnabled c;
     own := draw_body (own c); fired := fired c |}.

(** Calling a method on [null] throws a [TypeError]. *)
Definition call_getComponent (target : option Entity) (cls : Class)
  : completion (option Instance) :=
  match target with
  | None => Throw "TypeError: Cannot read properties of null"
  | Some e => Normal (Entity_getComponent e cls)
  end.

Definition getComponent (c : BaseComponent) (cls : Class)
  : completion (option Instance) :=
  match entity c with
  | None => Normal None
  | Some _ => call_getComponent (entity c) cls
  end.

(** The calls a client can make on a component. *)
Inductive call : Type :=
| CallReceiveEntity (e : option Entity)
| CallEnable
| CallDisable
| CallUpdate (delta : Z)
| CallDraw
| CallGetComponent (cls : Class).

Definition is_CallEnable (k : call) : bool :=
  match k with CallEnable => true | _ => false end.

Definition is_CallDisable (k : call) : bool :=
  match k with CallDisable => true | _ => false end.

Definition perform (c : BaseComponent) (k : call) : BaseComponent :=
  match k with
  | CallReceiveEntity e => _receiveEntity e c
  | CallEnable => enable c
  | CallDisable => disable c
  | CallUpdate delta => update delta c
  | CallDraw => draw c
  | CallGetComponent _ => c
  end.

Definition perform_all (c : BaseComponent) (ks : list call)
  : BaseComponent :=
  fold_left perform ks c.

Definition times_enabled (c : BaseComponent) : nat :=
  length (List.filter is_OnEnabled (fired c)).

Definition times_disabled (c : BaseComponent) : nat :=
  length (List.filter is_OnDisabled (fired c)).

End BaseComponent.

(** *** Runs of calls

    What a run of calls leaves behind, read off the calls alone: the
    hooks it fires, the last value [enable()] or [disable()] gave to
    [isEnabled], and the last entity handed to [_receiveEntity]. *)

Definition hook_of {Entity Class : Type} (k : @call Entity Class)
  : list (hook Entity) :=
  match k with
  | CallReceiveEntity e => [OnEntityReceived e]
  | CallEnable => [OnEnabled]
  | CallDisable => [OnDisabled]
  | CallUpdate _ | CallDraw | CallGetComponent _ => []
  end.

Definition hooks_of {Entity Class : Type} (ks : list (@call Entity Class))
  : list (hook Entity) :=
  flat_map hook_of ks.

Fixpoint last_switch {Entity Class : Type} (b : bool)
    (ks : list (@call Entity Class)) : bool :=
  match ks with
  | [] => b
  | CallEnable :: rest => last_switch true rest
  | CallDisable :: rest => last_switch false rest
  | _ :: rest => last_switch b rest
  end.

Fixpoint last_received {Entity Class : Type} (e : option Entity)
    (ks : list (@call Entity Class)) : option Entity :=
  match ks with
  | [] => e
  | CallReceiveEntity e' :: rest => last_received e' rest
  | _ :: rest => last_received e rest
  end.

End Component.

(** ** Component.ts: [Canvas] *)

Module Canvas.

(** A [Scene] is an object; the [Set<Scene>] of a canvas holds references
    and compares them by identity. *)
Definition Scene : Type := positive.

Section Canvas.
(** [Scene.ts] and [Entity.ts] are not part of this development: a
    scene object is a [SceneObj], created by [Scene_new] and changed by
    its own [addChild] and [removeChild]. *)
Context {Entity SceneObj : Type}.
Variable Scene_new : SceneObj.
Variable Scene_addChild : Entity -> SceneObj -> SceneObj.
Variable Scene_removeChild : Entity -> SceneObj -> SceneObj.
Variable Scene_hasChild : Entity -> SceneObj -> bool.

(** The fields of a canvas that its methods read and write, and the
    store of the scene objects they reach.  ([_element] and [_runLoop]
    are set once by the constructor and never touch the scene set.) *)
Record Canvas : Type := mkCanvas {
  scenes : gset Scene;
  rootScene : Scene;
  activeScene : Scene;
  store : gmap Scene SceneObj
}.

(** [new Canvas()] in a program whose scene objects so far are [h];
    [new Scene()] yields a reference that is not in use. *)
Definition constructor (h : gmap Scene SceneObj) : Canvas :=
  let root := fresh (dom h) in
  {| scenes := {[ root ]} ∪ ∅;
     rootScene := root;
     activeScene := root;
     store := <[ root := Scene_new ]> h |}.

Definition present (scene : Scene) (c : Canvas) : Canvas :=
  {| scenes := {[ scene ]} ∪ scenes c;
     rootScene := rootScene c;
     activeScene := scene;
     store := store c |}.

(** [Entity | Scene], told apart by [instanceof]. *)
Inductive child : Type :=
| ChildEntity (e : Entity)
| ChildScene (s : Scene).

Definition hasChild (ch : child) (c : Canvas) : bool :=
  match ch with
  | ChildEntity e =>
      match store c !! activeScene c with
      | Some o => Scene_hasChild e o
      | None => false
      end
  | ChildScene s => bool_decide (s ∈ scenes c)
  end.

Definition addChild (ch : child) (c : Canvas) : Canvas :=
  match ch with
  | ChildEntity e =>
      {| scenes := scenes c;
         rootScene := rootScene c;
         activeScene := activeScene c;
         store := alter (Scene_addChild e) (activeScene c) (store c) |}
  | ChildScene s =>
      {| scenes := {[ s ]} ∪ scenes c;
         rootScene := rootScene c;
         activeScene := activeScene c;
         store := store c |}
  end.

Definition removeChild (ch : child) (c : Canvas) : Canvas :=
  match ch with
  | ChildEntity e =>
      {| scenes := scenes c;
         rootScene := rootScene c;
         activeScene := activeScene c;
         store := alter (Scene_removeChild e) (activeScene c) (store c) |}
  | ChildScene s =>
      {| scenes := scenes c ∖ {[ s ]};
         rootScene := rootScene c;
         activeScene := activeScene c;
         store := store c |}
  end.

(** The operations of a canvas after its construction. *)
Inductive op : Type :=
| Present (s : Scene)
| AddChild (ch : child)
| RemoveChild (ch : child).

Definition step (c : Canvas) (o : op) : Canvas :=
  match o with
  | Present s => present s c
  | AddChild ch => addChild ch c
  | RemoveChild ch => removeChild ch c
  end.

Definition run (c : Canvas) (ops : list op) : Canvas :=
  fold_left step ops c.

(** [removes s o]: the operation [o] is [removeChild(s)] for the scene
    [s]. *)
Definition removes (s : Scene) (o : op) : bool :=
  match o with
  | RemoveChild (ChildScene s') => bool_decide (s' = s)
  | _ => false
  end.

(** No operation of [ops], run from [c], removes the scene that is
    active when it runs. *)
Fixpoint spares_active (c : Canvas) (ops : list op) : bool :=
  match ops with
  | [] => true
  | o :: rest =>
      negb (removes (activeScene c) o) && spares_active (step c o) rest
  end.

(** The scene-set invariant the specification asks for. *)
Definition active_is_member (c : Canvas) : Prop :=
  activeScene c ∈ scenes c.

Definition root_is_member (c : Canvas) : Prop :=
  rootScene c ∈ scenes c.

End Canvas.

(** Modelled from the spec: [Scene.ts] is missing.  For the examples a
    scene object is the list of its child entities, which are numbers;
    [addChild] appends a child that is not present yet and [removeChild]
    takes it out. *)
Definition demo_addChild (e : nat) (o : list nat) : list nat :=
  if bool_decide (e ∈ o) then o else o ++ [e].

Definition demo_removeChild (e : nat) (o : list nat) : list nat :=
  List.filter (fun x => negb (Nat.eqb x e)) o.

Definition demo_constructor : @Canvas (list nat) :=
  constructor [] ∅.

Definition demo_run (ops : list (@op nat)) : @Canvas (list nat) :=
  run demo_addChild demo_removeChild demo_constructor ops.

End Canvas.

(** ** Hooks/useEntitiesAtPoint.ts *)

Module HitTest.

Section useEntitiesAtPoint.
(** What the hook takes from the rest of the engine: the entity tree
    ([descendants], [getComponent(Geometry)]), the transform of a world
    position into an entity's local space
    ([useEntityTransforms(ent).matrixForWorldPosition().inverseMutate()
    .transformPoint]), the shape's containment test, the draw-order
    sort returned by [useCanvasDrawOrderSort()], the predicate
    [Canvas.DrawOrder.isDebugOverlay] and a component's [entity]. *)
Context {Entity Component Geometry Point : Type}.
Context `{Countable Entity}.
Variable descendants : Entity -> list Entity.
Variable getComponent_Geometry : Entity -> option Geometry.
Variable worldToLocal : Entity -> Point -> Point.
Variable containsPoint : Geometry -> Point -> bool.
Variable sort : list Entity -> list Component.
Variable isDebugOverlay : Component -> bool.
Variable component_entity : Component -> Entity.

(** The callback given to [allEnts.filter]. *)
Definition underCursor (worldPos : Point) (ent : Entity) : bool :=
  match getComponent_Geometry ent with
  | None => false
  | Some geometry => containsPoint geometry (worldToLocal ent worldPos)
  end.

Definition entsUnderCursor (rootEnt : Entity) (worldPos : Point)
  : list Entity :=
  let rootsDescendants := descendants rootEnt in
  let allEnts := rootEnt :: rootsDescendants in
  List.filter (underCursor worldPos) allEnts.

(** [sort(entsUnderCursor).filter(Canvas.DrawOrder.isDebugOverlay)
    .reverse()] *)
Definition rankedComponents (ents : list Entity) : list Component :=
  rev (List.filter isDebugOverlay (sort ents)).

(** The [for ... of] loop, with its two accumulators. *)
Fixpoint collect (components : list Component)
    (entsSeenSoFar : gset Entity) (sortedEnts : list Entity)
  : list Entity :=
  match components with
  | [] => sortedEnts
  | component :: rest =>
      let ent := component_entity component in
      if bool_decide (component_entity component ∈ entsSeenSoFar)
      then collect rest entsSeenSoFar sortedEnts
      else collect rest ({[ ent ]} ∪ entsSeenSoFar) (sortedEnts ++ [ent])
  end.

(** What the loop computes: the entities of a list in order of first
    appearance, skipping those already seen. *)
Fixpoint first_seen (seen : gset Entity) (l : list Entity)
  : list Entity :=
  match l with
  | [] => []
  | x :: rest =>
      if bool_decide (x ∈ seen) then first_seen seen rest
      else x :: first_seen ({[ x ]} ∪ seen) rest
  end.

Definition useEntitiesAtPoint (rootEnt : Entity) (worldPos : Point)
  : list Entity :=
  let under := entsUnderCursor rootEnt worldPos in
  if (length under <? 2)%nat then under
  else collect (rankedComponents under) ∅ [].

(** The ranking step as the specification words it: the draw order of
    exactly the geometry components of the matched entities, filtered
    to the components that are not debug overlays, reversed. *)
Variable isGeometry : Component -> bool.

Definition rankedComponents_spec (ents : list Entity) : list Component :=
  rev (List.filter (fun c => negb (isDebugOverlay c))
         (List.filter isGeometry (sort ents))).

End useEntitiesAtPoint.

(** *** A concrete entity tree, for the examples *)

Definition Point : Type := Z * Z.

Record Rect : Type := mkRect { width : Z; height : Z }.

(** Modelled from the spec: the component classes ([Geometry] among
    them) are missing.  A component knows its owning entity, may bear a
    shape, and carries the flag [Canvas.DrawOrder.isDebugOverlay]
    reads. *)
Record part : Type := mkPart {
  owner : nat;
  shape : option Rect;
  debugOverlay : bool
}.

(** Modelled from the spec: [Entity.ts] is missing.  An entity, named by
    a number, holds its components and its child entities in insertion
    order, and has a position its transform translates by. *)
Record world : Type := mkWorld {
  components : nat -> list part;
  children : nat -> list nat;
  position : nat -> Point
}.

(** Modelled from the spec: [Entity.descendants] is missing.  All the
    entities below [ent], parent before children, children in insertion
    order, down to [fuel] levels. *)
Fixpoint walk (w : world) (fuel : nat) (ent : nat) : list nat :=
  match fuel with
  | O => []
  | Datatypes.S fuel' =>
      flat_map (fun k => k :: walk w fuel' k) (children w ent)
  end.

Definition world_descendants (w : world) (depth : nat) (ent : nat)
  : list nat :=
  walk w depth ent.

(** Modelled from the spec: [Entity.getComponent] is missing.  A linear
    scan that answers with the first geometry-bearing component, or
    [null]. *)
Definition world_getGeometry (w : world) (ent : nat) : option Rect :=
  match List.filter (fun p => bool_decide (is_Some (shape p)))
          (components w ent) with
  | p :: _ => shape p
  | [] => None
  end.

(** Modelled from the spec: [useEntityTransforms] is missing.  The
    inverse of the entity's world transform, here a translation. *)
Definition world_toLocal (w : world) (ent : nat) (p : Point) : Point :=
  (fst p - fst (position w ent), snd p - snd (position w ent)).

(** Modelled from the spec: the shapes are missing.  Containment in an
    axis-aligned rectangle centred on the entity's position. *)
Definition rect_contains (r : Rect) (p : Point) : bool :=
  (2 * Z.abs (fst p) <=? width r) && (2 * Z.abs (snd p) <=? height r).

(** Modelled from the spec: [Canvas.DrawOrder] is missing.  The draw
    order of the given entities: entity by entity, each entity's
    components in insertion order. *)
Definition world_sort (w : world) (ents : list nat) : list part :=
  flat_map (components w) ents.

Definition world_entitiesAtPoint (w : world) (depth : nat)
    (rootEnt : nat) (worldPos : Point) : list nat :=
  useEntitiesAtPoint (world_descendants w depth) (world_getGeometry w)
    (world_toLocal w) rect_contains (world_sort w) debugOverlay owner
    rootEnt worldPos.

(** The scenario of the specification: under the root [0], entity [1]
    (a 100 x 100 square) is added before entity [2] (a 50 x 50 square),
    both at the origin.  As in the engine, a geometry component is one
    of the components that [isDebugOverlay] accepts. *)
Definition squares : world :=
  {| components := fun ent =>
       match ent with
       | 1%nat => [mkPart 1 (Some (mkRect 100 100)) true]
       | 2%nat => [mkPart 2 (Some (mkRect 50 50)) true]
       | _ => []
       end;
     children := fun ent =>
       match ent with
       | 0%nat => [1%nat; 2%nat]
       | _ => []
       end;
     position := fun _ => (0, 0) |}.

(** The same two squares apart from each other: entity [1] at the
    origin and entity [2] at [(200, 0)]. *)
Definition squares_apart : world :=
  {| components := components squares;
     children := children squares;
     position := fun ent =>
       match ent with
       | 2%nat => (200, 0)
       | _ => (0, 0)
       end |}.

(** [under w p] are the entities of the world [w] under the point [p],
    and [has_shape] tells its geometry components from the others. *)
Definition under (w : world) (p : Point) : list nat :=
  entsUnderCursor (world_descendants w 3)
    (world_getGeometry w) (world_toLocal w)
    rect_contains 0%nat p.

Definition has_shape (c : part) : bool :=
  bool_decide (is_Some (shape c)).

End HitTest.

(** ** Components/Keyboard.ts *)

Module Keyboard.

(** The two closures a keyboard component hands to [document]. *)
Inductive listener : Type :=
| processKeydown_ref
| processKeyup_ref.

#[global] Instance listener_eq_dec : EqDecision listener.
Proof. solve_decision. Defined.

(** What the component does to the world outside it. *)
Inductive effect : Type :=
| AddEventListener (type : string) (l : listener)
| RemoveEventListener (type : string) (l : listener)
| PreventDefault
| RunFirstKeyHandler (handler : nat).

Definition is_listener_call (e : effect) : bool :=
  match e with
  | AddEventListener _ _ | RemoveEventListener _ _ => true
  | _ => false
  end.

Record KeyboardEvent : Type := mkEvent {
  key : string;
  repeat : bool
}.

(** The module-level variables, one component's closure ([pressed] and
    the [preventDefault] option), the listeners [document] holds, and the
    trace of effects so far. *)
Record state : Type := mkState {
  firstKeyHasHappened : bool;
  pendingFirstKeyHandlers : list nat;
  preventDefault : bool;
  pressed : gset string;
  listeners : list (string * listener);
  trace : list effect
}.

Definition emit (es : list effect) (st : state) : state :=
  {| firstKeyHasHappened := firstKeyHasHappened st;
     pendingFirstKeyHandlers := pendingFirstKeyHandlers st;
     preventDefault := preventDefault st;
     pressed := pressed st;
     listeners := listeners st;
     trace := trace st ++ es |}.

Definition set_pressed (p : gset string) (st : state) : state :=
  {| firstKeyHasHappened := firstKeyHasHappened st;
     pendingFirstKeyHandlers := pendingFirstKeyHandlers st;
     preventDefault := preventDefault st;
     pressed := p;
     listeners := listeners st;
     trace := trace st |}.

Definition set_listeners (ls : list (string * listener)) (st : state)
  : state :=
  {| firstKeyHasHappened := firstKeyHasHappened st;
     pendingFirstKeyHandlers := pendingFirstKeyHandlers st;
     preventDefault := preventDefault st;
     pressed := pressed st;
     listeners := ls;
     trace := trace st |}.

(** [document.addEventListener]: a listener already registered for the
    type is not registered twice. *)
Definition addEventListener (type : string) (l : listener) (st : state)
  : state :=
  emit [AddEventListener type l]
    (if bool_decide ((type, l) ∈ listeners st) then st
     else set_listeners (listeners st ++ [(type, l)]) st).

Definition removeEventListener (type : string) (l : listener) (st : state)
  : state :=
  emit [RemoveEventListener type l]
    (set_listeners
       (List.filter (fun x => negb (bool_decide (x = (type, l))))
          (listeners st)) st).

(** [useFirstKey(handler)] *)
Definition useFirstKey (handler : nat) (st : state) : state :=
  {| firstKeyHasHappened := firstKeyHasHappened st;
     pendingFirstKeyHandlers := pendingFirstKeyHandlers st ++ [handler];
     preventDefault := preventDefault st;
     pressed := pressed st;
     listeners := listeners st;
     trace := trace st |}.

(** The body of [Keyboard({ preventDefault })] up to its [return]: a
    fresh [pressed] set; the two hook callbacks are only registered. *)
Definition Keyboard (preventDefault_opt : option bool) (st : state)
  : state :=
  {| firstKeyHasHappened := firstKeyHasHappened st;
     pendingFirstKeyHandlers := pendingFirstKeyHandlers st;
     preventDefault := match preventDefault_opt with
                       | Some b => b
                       | None => false
                       end;
     pressed := ∅;
     listeners := listeners st;
     trace := trace st |}.

Definition processKeydown (event : KeyboardEvent) (st : state) : state :=
  let st1 := if preventDefault st then emit [PreventDefault] st else st in
  let st2 :=
    if firstKeyHasHappened st1 then st1
    else
      {| firstKeyHasHappened := true;
         pendingFirstKeyHandlers := [];
         preventDefault := preventDefault st1;
         pressed := pressed st1;
         listeners := listeners st1;
         trace := trace st1
                  ++ map RunFirstKeyHandler (pendingFirstKeyHandlers st1) |}
  in
  if repeat event then st2
  else set_pressed ({[ key event ]} ∪ pressed st2) st2.

Definition processKeyup (event : KeyboardEvent) (st : state) : state :=
  let st1 := emit [PreventDefault] st in
  if repeat event then st1
  else set_pressed (pressed st1 ∖ {[ key event ]}) st1.

(** The callback given to [onEnabled]. *)
Definition onEnabled_callback (st : state) : state :=
  addEventListener "keyup" processKeyup_ref
    (addEventListener "keydown" processKeydown_ref st).

(** The callback given to [onDisabled]. *)
Definition onDisabled_callback (st : state) : state :=
  removeEventListener "keyup" processKeyup_ref
    (removeEventListener "keydown" processKeydown_ref st).

(** Angles are kept exact, as multiples of [Math.PI / 4]. *)
Record Vector : Type := mkVector {
  angle : Z;
  magnitude : Z
}.

Section vectorFromKeys.
(** [String.prototype.toUpperCase] *)
Variable toUpperCase : string -> string.

(** [pressedKeys.has(k) || pressedKeys.has(k.toUpperCase())] *)
Definition held (pressedKeys : gset string) (k : string) : bool :=
  bool_decide (k ∈ pressedKeys)
  || bool_decide (toUpperCase k ∈ pressedKeys).

Definition vectorFromKeys (st : state)
    (upKey downKey leftKey rightKey : string) : Vector :=
  let pressedKeys := pressed st in
  let angle := 0 in
  let magnitude := 1 in
  let half := 4 in
  let quarter := 2 in
  let eighth := 1 in
  let '(angle, magnitude) :=
    if held pressedKeys upKey && held pressedKeys rightKey then
      (- eighth, magnitude)
    else if held pressedKeys upKey && held pressedKeys leftKey then
      (half + eighth, magnitude)
    else if held pressedKeys downKey && held pressedKeys rightKey then
      (eighth, magnitude)
    else if held pressedKeys downKey && held pressedKeys leftKey then
      (quarter + eighth, magnitude)
    else if held pressedKeys upKey && negb (held pressedKeys downKey) then
      (- quarter, magnitude)
    else if held pressedKeys downKey && negb (held pressedKeys upKey) then
      (quarter, magnitude)
    else if held pressedKeys leftKey && negb (held pressedKeys rightKey)
    then
      (half, magnitude)
    else if held pressedKeys rightKey && negb (held pressedKeys leftKey)
    then
      (0, magnitude)
    else
      (angle, 0)
  in
  mkVector angle magnitude.
End vectorFromKeys.

(** Everything that can happen to a keyboard component once it exists:
    the engine fires one of its two hooks, the browser delivers an event
    to a listener that is registered, or a client reads a vector. *)
Inductive action : Type :=
| FireOnEnabled
| FireOnDisabled
| Keydown (event : KeyboardEvent)
| Keyup (event : KeyboardEvent)
| UseFirstKey (handler : nat)
| VectorFromKeys (upKey downKey leftKey rightKey : string).

Definition is_hook (a : action) : bool :=
  match a with
  | FireOnEnabled | FireOnDisabled => true
  | _ => false
  end.

Definition act (st : state) (a : action) : state :=
  match a with
  | FireOnEnabled => onEnabled_callback st
  | FireOnDisabled => onDisabled_callback st
  | Keydown event =>
      if bool_decide (("keydown"%string, processKeydown_ref) ∈ listeners st)
      then processKeydown event st else st
  | Keyup event =>
      if bool_decide (("keyup"%string, processKeyup_ref) ∈ listeners st)
      then processKeyup event st else st
  | UseFirstKey handler => useFirstKey handler st
  | VectorFromKeys _ _ _ _ => st
  end.

(** The listener calls among the effects an action adds to the trace. *)
Definition listener_calls (es : list effect) : list effect :=
  List.filter is_listener_call es.

(** ASCII upper-casing, enough for the examples. *)
Definition ascii_upper (c : ascii) : ascii :=
  let n := nat_of_ascii c in
  if ((97 <=? n) && (n <=? 122))%nat then ascii_of_nat (n - 32) else c.

Fixpoint upper (s : string) : string :=
  match s with
  | EmptyString => EmptyString
  | String c rest => String (ascii_upper c) (upper rest)
  end.

Definition initial : state :=
  {| firstKeyHasHappened := false;
     pendingFirstKeyHandlers := [];
     preventDefault := false;
     pressed := ∅;
     listeners := [];
     trace := [] |}.

(** *** Runs of actions *)

Definition run (st : state) (acts : list action) : state :=
  fold_left act acts st.

Definition is_first_key_run (e : effect) : bool :=
  match e with
  | RunFirstKeyHandler _ => true
  | _ => false
  end.

(** The first-key handlers a trace has run, in order. *)
Definition first_key_runs (es : list effect) : list effect :=
  List.filter is_first_key_run es.

(** [document] holds neither of the component's two listeners. *)
Definition deaf (st : state) : Prop :=
  (("keydown"%string, processKeydown_ref) ∉ listeners st)
  /\ (("keyup"%string, processKeyup_ref) ∉ listeners st).

(** Both of the component's listeners are registered. *)
Definition hearing (st : state) : Prop :=
  (("keydown"%string, processKeydown_ref) ∈ listeners st)
  /\ (("keyup"%string, processKeyup_ref) ∈ listeners st).

(** Whether the key [k] counts as pressed after the events of [acts],
    when [b] says whether it did before: the last keydown or keyup of
    [k] that is not a repeat decides. *)
Fixpoint pressed_after (k : string) (b : bool) (acts : list action)
  : bool :=
  match acts with
  | [] => b
  | Keydown event :: rest =>
      pressed_after k
        (if negb (repeat event) && bool_decide (key event = k)
         then true else b) rest
  | Keyup event :: rest =>
      pressed_after k
        (if negb (repeat event) && bool_decide (key event = k)
         then false else b) rest
  | _ :: rest => pressed_after k b rest
  end.

End Keyboard.

(** ** Components/Tiled.ts *)

Module Tiled.

(** JavaScript numbers, as far as a Tiled file uses them: the integral
    doubles and [NaN].  Subtracting one from them is exact for the
    integers above [- 2^53] and up to [2^53] ([safe_integer]), the range
    the theorems below stay in. *)
Inductive number : Type :=
| NaN
| Num (z : Z).

Definition safe_integer (z : Z) : Prop := - 2 ^ 53 < z <= 2 ^ 53.

(** [n - 1], exact where [n] is a [safe_integer]; the theorems use it
    nowhere else. *)
Definition minus_one (n : number) : number :=
  match n with
  | NaN => NaN
  | Num z => Num (z - 1)
  end.

(** [n || 0] *)
Definition or_zero (n : number) : number :=
  match n with
  | NaN => Num 0
  | Num z => Num z
  end.

#[global] Instance number_eq_dec : EqDecision number.
Proof. solve_decision. Defined.

(** The value of an attribute, by its [typeof]. *)
Inductive value : Type :=
| VNumber (n : number)
| VString (s : string)
| VOther.

#[global] Instance value_eq_dec : EqDecision value.
Proof. solve_decision. Defined.

(** [XMLSourceLoader.Element]: a string, or an object with a tag name,
    attributes and optional children. *)
Inductive Element : Type :=
| Text (s : string)
| Node (tagName : string) (attributes : gmap string value)
       (children : option (list Element)).

Definition is_node (e : Element) : bool :=
  match e with Text _ => false | Node _ _ _ => true end.

Definition has_tag (tagName : string) (e : Element) : bool :=
  match e with
  | Text _ => false
  | Node t _ _ => bool_decide (t = tagName)
  end.

Definition attributes_of (e : Element) : gmap string value :=
  match e with Text _ => ∅ | Node _ a _ => a end.

Definition children_of (e : Element) : option (list Element) :=
  match e with Text _ => None | Node _ _ c => c end.

Definition getElementByTagName (parent : Element) (tagName : string)
  : option Element :=
  match parent with
  | Text _ => None
  | Node _ _ None => None
  | Node _ _ (Some children) =>
      match List.find (has_tag tagName) children with
      | Some maybeEl => if is_node maybeEl then Some maybeEl else None
      | None => None
      end
  end.

Definition getElementsByTagName (parent : Element) (tagName : string)
  : list Element :=
  match parent with
  | Text _ => []
  | Node _ _ None => []
  | Node _ _ (Some children) => List.filter (has_tag tagName) children
  end.

(** *** Strings *)

(** [String(child)] for an element inside [Array.prototype.join]. *)
Definition to_string (e : Element) : string :=
  match e with
  | Text s => s
  | Node _ _ _ => "[object Object]"
  end.

(** [strings.join(sep)] *)
Fixpoint join (sep : string) (strings : list string) : string :=
  match strings with
  | [] => ""
  | [s] => s
  | s :: rest => s +:+ sep +:+ join sep rest
  end.

(** [s.split(sep)] for a separator of one character. *)
Fixpoint split (sep : ascii) (s : string) : list string :=
  match s with
  | EmptyString => [EmptyString]
  | String c rest =>
      if Ascii.eqb c sep then EmptyString :: split sep rest
      else match split sep rest with
           | cell :: cells => String c cell :: cells
           | [] => [String c EmptyString]
           end
  end.

(** White space, as far as ASCII goes: the space and the characters
    from tab to carriage return. *)
Definition is_space (c : ascii) : bool :=
  let n := nat_of_ascii c in
  (Nat.eqb n 32 || ((9 <=? n) && (n <=? 13)))%nat.

Fixpoint trim_start (s : string) : string :=
  match s with
  | EmptyString => EmptyString
  | String c rest => if is_space c then trim_start rest else s
  end.

Fixpoint trim_end (s : string) : string :=
  match s with
  | EmptyString => EmptyString
  | String c rest =>
      match trim_end rest with
      | EmptyString => if is_space c then EmptyString
                       else String c EmptyString
      | rest' => String c rest'
      end
  end.

(** [s.trim()] *)
Definition trim (s : string) : string := trim_end (trim_start s).

Section Components.
(** [Number(string)], the [Grid] model and the [SpriteSheet] component
    come from outside this file.  [new Grid] and [grid.setData] may
    throw, and what they throw leaves [Layer] as it is. *)
Variable Number : string -> number.
Context {Grid SpriteSheet : Type}.
Variable Grid_new : number -> number -> number -> completion Grid.
Variable Grid_setData : list number -> Grid -> completion Grid.
Variable SpriteSheet_new : string -> number -> number -> SpriteSheet.

Record TilesetApi : Type := mkTileset { spriteSheet : SpriteSheet }.

Definition Tileset (data : Element) : completion TilesetApi :=
  match data with
  | Text _ => Throw "Invalid XML data passed to Tiled.Tileset"
  | Node tagName attributes children =>
      if negb (bool_decide (tagName = "tileset"%string))
         || negb (bool_decide (is_Some children))
      then Throw "Invalid XML data passed to Tiled.Tileset"
      else
        match getElementByTagName data "image" with
        | None =>
            Throw
              "XML data passed to Tiled.Tileset does not contain an image"
        | Some image =>
            match attributes_of image !! "source"%string with
            | Some (VString imageUrl) =>
                match attributes !! "tilewidth"%string with
                | Some (VNumber tileWidth) =>
                    match attributes !! "tileheight"%string with
                    | Some (VNumber tileHeight) =>
                        Normal
                          {| spriteSheet :=
                               SpriteSheet_new imageUrl
                                 (or_zero tileWidth)
                                 (or_zero tileHeight) |}
                    | _ =>
                        Throw
                          "tileheight attribute of tileset in XML data passed to Tiled.Tileset is not a number"
                    end
                | _ =>
                    Throw
                      "tilewidth attribute of tileset in XML data passed to Tiled.Tileset is not a number"
                end
            | _ =>
                Throw
                  "source attribute of image in XML data passed to Tiled.Tileset is not a string"
            end
        end
  end.

Record LayerApi : Type := mkLayer { grid : Grid; visible : bool }.

(** The cells of the layer: [children.join(" ").split(",")], each
    trimmed, converted and decremented. *)
Definition numbers_of (children : list Element) : list number :=
  let csv := join " " (map to_string children) in
  map minus_one (map (fun cell => Number (trim cell)) (split "," csv)).

Definition Layer (layer : Element) : completion LayerApi :=
  match layer with
  | Text _ => Throw "Invalid XML data passed to Tiled.Layer"
  | Node tagName attributes _ =>
      if negb (bool_decide (tagName = "layer"%string))
      then Throw "Invalid XML data passed to Tiled.Layer"
      else
        match attributes !! "width"%string with
        | Some (VNumber width) =>
            match attributes !! "height"%string with
            | Some (VNumber height) =>
                match getElementByTagName layer "data" with
                | None =>
                    Throw
                      "`data` element not found in XML data passed to Tiled.Layer"
                | Some dataEl =>
                    if negb (bool_decide
                               (attributes_of dataEl !! "encoding"%string
                                = Some (VString "csv")))
                    then
                      Throw
                        "XML layer data passed to Tiled.Layer does not use csv encoding. Only csv encoding is supported at this time."
                    else
                      grid0 ← Grid_new width height (Num 0);
                      grid1 ←
                        match children_of dataEl with
                        | Some children =>
                            Grid_setData (numbers_of children) grid0
                        | None => Normal grid0
                        end;
                      Normal
                        {| grid := grid1;
                           visible :=
                             negb (bool_decide
                                     (attributes !! "visible"%string
                                      = Some (VNumber (Num 0)))) |}
                end
            | _ =>
                Throw
                  "`height` attribute in XML data passed to Tiled.Layer was not a number"
            end
        | _ =>
            Throw
              "`width` attribute in XML data passed to Tiled.Layer was not a number"
        end
  end.

End Components.

(** *** The shapes the two constructors accept and reject

    [tileset_problem data m]: [data] has the shape problem that the
    message [m] describes, and none of the problems checked before it.
    [tileset_ok data]: [data] is a tileset element as [Tiled.Tileset]
    expects it. *)

Definition is_number (v : option value) : Prop :=
  exists n, v = Some (VNumber n).

Definition is_string (v : option value) : Prop :=
  exists s, v = Some (VString s).

(** The first child of [parent] that is an element named [tagName]. *)
Definition first_child (parent : Element) (tagName : string)
  : option Element :=
  match children_of parent with
  | Some cs => List.find (has_tag tagName) cs
  | None => None
  end.

Inductive tileset_ok : Element -> Prop :=
| tileset_ok_intro attributes cs image :
    first_child (Node "tileset" attributes (Some cs)) "image" = Some image ->
    is_string (attributes_of image !! "source"%string) ->
    is_number (attributes !! "tilewidth"%string) ->
    is_number (attributes !! "tileheight"%string) ->
    tileset_ok (Node "tileset" attributes (Some cs)).

Inductive tileset_problem : Element -> string -> Prop :=
| tileset_not_an_element s :
    tileset_problem (Text s) "Invalid XML data passed to Tiled.Tileset"
| tileset_wrong_tag tagName attributes children :
    tagName <> "tileset"%string ->
    tileset_problem (Node tagName attributes children)
      "Invalid XML data passed to Tiled.Tileset"
| tileset_no_children attributes :
    tileset_problem (Node "tileset" attributes None)
      "Invalid XML data passed to Tiled.Tileset"
| tileset_no_image attributes cs :
    first_child (Node "tileset" attributes (Some cs)) "image" = None ->
    tileset_problem (Node "tileset" attributes (Some cs))
      "XML data passed to Tiled.Tileset does not contain an image"
| tileset_source_not_string attributes cs image :
    first_child (Node "tileset" attributes (Some cs)) "image" = Some image ->
    ~ is_string (attributes_of image !! "source"%string) ->
    tileset_problem (Node "tileset" attributes (Some cs))
      "source attribute of image in XML data passed to Tiled.Tileset is not a string"
| tileset_tilewidth_not_number attributes cs image :
    first_child (Node "tileset" attributes (Some cs)) "image" = Some image ->
    is_string (attributes_of image !! "source"%string) ->
    ~ is_number (attributes !! "tilewidth"%string) ->
    tileset_problem (Node "tileset" attributes (Some cs))
      "tilewidth attribute of tileset in XML data passed to Tiled.Tileset is not a number"
| tileset_tileheight_not_number attributes cs image :
    first_child (Node "tileset" attributes (Some cs)) "image" = Some image ->
    is_string (attributes_of image !! "source"%string) ->
    is_number (attributes !! "tilewidth"%string) ->
    ~ is_number (attributes !! "tileheight"%string) ->
    tileset_problem (Node "tileset" attributes (Some cs))
      "tileheight attribute of tileset in XML data passed to Tiled.Tileset is not a number".

Inductive layer_ok : Element -> Prop :=
| layer_ok_intro attributes children dataEl :
    is_number (attributes !! "width"%string) ->
    is_number (attributes !! "height"%string) ->
    first_child (Node "layer" attributes children) "data" = Some dataEl ->
    attributes_of dataEl !! "encoding"%string = Some (VString "csv") ->
    layer_ok (Node "layer" attributes children).

Inductive layer_problem : Element -> string -> Prop :=
| layer_not_an_element s :
    layer_problem (Text s) "Invalid XML data passed to Tiled.Layer"
| layer_wrong_tag tagName attributes children :
    tagName <> "layer"%string ->
    layer_problem (Node tagName attributes children)
      "Invalid XML data passed to Tiled.Layer"
| layer_width_not_number attributes children :
    ~ is_number (attributes !! "width"%string) ->
    layer_problem (Node "layer" attributes children)
      "`width` attribute in XML data passed to Tiled.Layer was not a number"
| layer_height_not_number attributes children :
    is_number (attributes !! "width"%string) ->
    ~ is_number (attributes !! "height"%string) ->
    layer_problem (Node "layer" attributes children)
      "`height` attribute in XML data passed to Tiled.Layer was not a number"
| layer_no_data attributes children :
    is_number (attributes !! "width"%string) ->
    is_number (attributes !! "height"%string) ->
    first_child (Node "layer" attributes children) "data" = None ->
    layer_problem (Node "layer" attributes children)
      "`data` element not found in XML data passed to Tiled.Layer"
| layer_not_csv attributes children dataEl :
    is_number (attributes !! "width"%string) ->
    is_number (attributes !! "height"%string) ->
    first_child (Node "layer" attributes children) "data" = Some dataEl ->
    attributes_of dataEl !! "encoding"%string <> Some (VString "csv") ->
    layer_problem (Node "layer" attributes children)
      "XML layer data passed to Tiled.Layer does not use csv encoding. Only csv encoding is supported at this time.".

(** *** Concrete collaborators for the examples

    [Number_decimal] is [Number] on optionally signed decimal integers,
    the way Tiled writes tile ids; the empty string converts to [0] and
    anything else is treated as [NaN] here. *)

Definition digit (c : ascii) : option Z :=
  let n := nat_of_ascii c in
  if ((48 <=? n) && (n <=? 57))%nat then Some (Z.of_nat (n - 48)) else None.

Fixpoint digits (s : string) (acc : Z) : option Z :=
  match s with
  | EmptyString => Some acc
  | String c rest =>
      match digit c with
      | Some d => digits rest (10 * acc + d)
      | None => None
      end
  end.

Definition unsigned_decimal (s : string) : option Z :=
  match s with
  | EmptyString => None
  | _ => digits s 0
  end.

Definition number_of (sign : Z) (magnitude : option Z) : number :=
  match magnitude with
  | Some z => Num (sign * z)
  | None => NaN
  end.

Definition Number_decimal (s : string) : number :=
  match trim s with
  | EmptyString => Num 0
  | String c rest =>
      if Ascii.eqb c "-" then number_of (-1) (unsigned_decimal rest)
      else if Ascii.eqb c "+" then number_of 1 (unsigned_decimal rest)
      else number_of 1 (unsigned_decimal (String c rest))
  end.

(** Modelled from the spec: [Models/Grid] is missing, and the
    specification only names the grid as state derived from the data.
    Here a grid remembers its size, its default value and the array
    given to [setData], and [setData] refuses an array that does not
    hold one value for every cell. *)
Record demo_grid : Type := mkGrid {
  size_x : number;
  size_y : number;
  default_value : number;
  data : option (list number)
}.

Definition demo_Grid_new (w h d : number) : completion demo_grid :=
  Normal (mkGrid w h d None).

Definition demo_cells (g : demo_grid) : option Z :=
  match size_x g, size_y g with
  | Num w, Num h => Some (w * h)
  | _, _ => None
  end.

Definition demo_setData (ns : list number) (g : demo_grid)
  : completion demo_grid :=
  if bool_decide (demo_cells g = Some (Z.of_nat (length ns)))
  then Normal (mkGrid (size_x g) (size_y g) (default_value g) (Some ns))
  else Throw "setData: the data does not fit the grid".

Definition demo_Layer : Element -> completion (@LayerApi demo_grid) :=
  Layer Number_decimal demo_Grid_new demo_setData.

Definition demo_Tileset
  : Element -> completion (@TilesetApi (string * number * number)) :=
  Tileset (fun url w h => (url, w, h)).

(** A layer of two by two tiles, and a tileset of 16 x 16 tiles. *)
Definition demo_layer (encoding : string) (csv : string) : Element :=
  Node "layer"
    (<[ "width"%string := VNumber (Num 2) ]>
       (<[ "height"%string := VNumber (Num 2) ]> ∅))
    (Some [Node "data" (<[ "encoding"%string := VString encoding ]> ∅)
             (Some [Text csv])]).

Definition demo_tileset (tagName : string) : Element :=
  Node tagName
    (<[ "tilewidth"%string := VNumber (Num 16) ]>
       (<[ "tileheight"%string := VNumber (Num 16) ]> ∅))
    (Some [Node "image" (<[ "source"%string := VString "tiles.png" ]> ∅)
             None]).

(** *** [makeTiledObject] *)

Record TiledProperty : Type := mkProperty {
  property_name : option value;
  property_value : option value;
  property_type : option value
}.

Record BaseTiledObjectApi : Type := mkApi {
  api_object : Element;
  api_id : option value;
  api_name : option value;
  api_location : number * number;
  api_size : option (number * number);
  api_properties : list TiledProperty
}.

Inductive TiledObjectApi : Type :=
| KindString (object : string)
| KindUnknown (api : BaseTiledObjectApi)
| KindPoint (api : BaseTiledObjectApi)
| KindEllipse (api : BaseTiledObjectApi)
| KindText (api : BaseTiledObjectApi)
| KindPolygon (points : list (number * number)) (api : BaseTiledObjectApi).

Definition kind (o : TiledObjectApi) : string :=
  match o with
  | KindString _ => "string"
  | KindUnknown _ => "unknown"
  | KindPoint _ => "point"
  | KindEllipse _ => "ellipse"
  | KindText _ => "text"
  | KindPolygon _ _ => "polygon"
  end.

(** The number of times [sep] occurs in [s]. *)
Fixpoint occurrences (sep : ascii) (s : string) : nat :=
  match s with
  | EmptyString => O
  | String c rest =>
      if Ascii.eqb c sep then Datatypes.S (occurrences sep rest)
      else occurrences sep rest
  end.

Section makeTiledObject.
(** [Number] on strings, and [Number(v)] and the truthiness of an
    attribute value [v] ([None] is [undefined]). *)
Variable Number : string -> number.
Variable Number_of_value : option value -> number.
Variable truthy : option value -> bool.

(** [new Point(Number(pair[0]), Number(pair[1]))]; an index past the end
    reads [undefined], which converts to [NaN].  In [makeTiledObject]
    below, calling [split] on a [points] attribute that is not a string
    throws a [TypeError]. *)
Definition point_of_pair (pair : list string) : number * number :=
  (match pair !! 0%nat with Some s => Number s | None => NaN end,
   match pair !! 1%nat with Some s => Number s | None => NaN end).

Definition property_of (child : Element) : TiledProperty :=
  {| property_name := attributes_of child !! "name"%string;
     property_value := attributes_of child !! "value"%string;
     property_type := attributes_of child !! "type"%string |}.

Definition makeTiledObject (object : Element)
  : completion TiledObjectApi :=
  match object with
  | Text s => Normal (KindString s)
  | Node _ attributes _ =>
      let properties :=
        match getElementByTagName object "properties" with
        | Some maybePropertiesEl =>
            map property_of
              (getElementsByTagName maybePropertiesEl "property")
        | None => []
        end in
      let api :=
        {| api_object := object;
           api_id := attributes !! "id"%string;
           api_name := attributes !! "name"%string;
           api_location :=
             (Number_of_value (attributes !! "x"%string),
              Number_of_value (attributes !! "y"%string));
           api_size :=
             if truthy (attributes !! "width"%string)
                && truthy (attributes !! "height"%string)
             then Some (Number_of_value (attributes !! "width"%string),
                        Number_of_value (attributes !! "height"%string))
             else None;
           api_properties := properties |} in
      match getElementByTagName object "point" with
      | Some _ => Normal (KindPoint api)
      | None =>
      match getElementByTagName object "ellipse" with
      | Some _ => Normal (KindEllipse api)
      | None =>
      match getElementByTagName object "text" with
      | Some _ => Normal (KindText api)
      | None =>
      match getElementByTagName object "polygon" with
      | Some maybePolygonEl =>
          match attributes_of maybePolygonEl !! "points"%string with
          | Some (VString points) =>
              Normal
                (KindPolygon
                   (map point_of_pair
                      (map (split ",") (split " " points)))
                   api)
          | _ => Throw "TypeError"
          end
      | None => Normal (KindUnknown api)
      end end end end
  end.

End makeTiledObject.

(** [Number(v)] and the truthiness of an attribute value, for the
    examples; a value that is neither a number nor a string is taken to
    be an object. *)
Definition demo_Number_of_value (v : option value) : number :=
  match v with
  | Some (VNumber n) => n
  | Some (VString s) => Number_decimal s
  | Some VOther | None => NaN
  end.

Definition demo_truthy (v : option value) : bool :=
  match v with
  | Some (VNumber NaN) | Some (VNumber (Num 0)) => false
  | Some (VNumber _) => true
  | Some (VString EmptyString) => false
  | Some (VString _) => true
  | Some VOther => true
  | None => false
  end.

Definition demo_makeTiledObject : Element -> completion TiledObjectApi :=
  makeTiledObject Number_decimal demo_Number_of_value demo_truthy.

(** A tileset whose tile size is given, and a triangle. *)
Definition demo_tileset_sized (w h : number) : Element :=
  Node "tileset"
    (<[ "tilewidth"%string := VNumber w ]>
       (<[ "tileheight"%string := VNumber h ]> ∅))
    (Some [Text " ";
           Node "image" (<[ "source"%string := VString "tiles.png" ]> ∅)
             None]).

Definition demo_triangle : Element :=
  Node "object"
    (<[ "id"%string := VNumber (Num 7) ]>
       (<[ "x"%string := VNumber (Num 32) ]>
          (<[ "y"%string := VNumber (Num 64) ]> ∅)))
    (Some [Node "polygon"
             (<[ "points"%string := VString "0,0 16,0 8,12" ]> ∅) None]).

End Tiled.

(** * Properties *)

(** ** Component lifecycle *)

Section ComponentFacts.
Context {Entity Class Instance S : Type}.
Variable Entity_getComponent : Entity -> Class -> option Instance.
Variable onEntityReceived_body : option Entity -> S -> S.
Variable onEnabled_body : S -> S.
Variable onDisabled_body : S -> S.
Variable update_body : Z -> S -> S.
Variable draw_body : S -> S.

Let component : Type := @Component.BaseComponent Entity S.
Let enable : component -> component := Component.enable onEnabled_body.
Let disable : component -> component := Component.disable onDisabled_body.
Let perform : component -> @Component.call Entity Class -> component :=
  Component.perform onEntityReceived_body onEnabled_body onDisabled_body
    update_body draw_body.
Let perform_all := Component.perform_all (Class := Class)
  onEntityReceived_body onEnabled_body onDisabled_body update_body
  draw_body.

Lemma count_hook_snoc (p : Component.hook Entity -> bool) l h :
  length (List.filter p (l ++ [h]))
  = (length (List.filter p l) + if p h then 1 else 0)%nat.
Proof.
  rewrite List.filter_app, length_app. simpl.
  destruct (p h); reflexivity.
Qed.

Lemma perform_times_disabled (c : component) k :
  Component.times_disabled (perform c k)
  = (Component.times_disabled c
     + if Component.is_CallDisable k then 1 else 0)%nat.
Proof.
  unfold Component.times_disabled.
  destruct k; simpl; rewrite ?count_hook_snoc; simpl; lia.
Qed.

Lemma perform_times_enabled (c : component) k :
  Component.times_enabled (perform c k)
  = (Component.times_enabled c
     + if Component.is_CallEnable k then 1 else 0)%nat.
Proof.
  unfold Component.times_enabled.
  destruct k; simpl; rewrite ?count_hook_snoc; simpl; lia.
Qed.

Lemma perform_all_snoc (c : component) ks k :
  perform_all c (ks ++ [k]) = perform (perform_all c ks) k.
Proof. unfold perform_all, Component.perform_all. apply fold_left_app. Qed.

(** Over any run of calls, [onDisabled] has fired once per call of
    [disable()] and [onEnabled] once per call of [enable()]. *)
Lemma hooks_counted (c : component) ks :
  Component.times_disabled (perform_all c ks)
  = (Component.times_disabled c
     + length (List.filter Component.is_CallDisable ks))%nat
  /\ Component.times_enabled (perform_all c ks)
     = (Component.times_enabled c
        + length (List.filter Component.is_CallEnable ks))%nat.
Proof.
  induction ks as [| k ks IH] using rev_ind.
  - simpl. split; lia.
  - rewrite perform_all_snoc, perform_times_disabled,
      perform_times_enabled, !List.filter_app, !length_app.
    destruct IH as [-> ->]. simpl.
    destruct k; simpl; split; lia.
Qed.

(** C5.  One call of [enable()] sets [isEnabled] to [true] and fires
    [onEnabled] exactly once, whatever [isEnabled] was before; one call
    of [disable()] sets [isEnabled] to [false] and fires [onDisabled]
    exactly once; and on a component that never receives [disable()]
    the [onDisabled] hook never fires. *)
Theorem lifecycle_hooks_fire_exactly_once :
  (forall c : component,
      Component.isEnabled (enable c) = true
      /\ Component.fired (enable c)
         = Component.fired c ++ [Component.OnEnabled]
      /\ Component.times_enabled (enable c)
         = Datatypes.S (Component.times_enabled c)
      /\ Component.times_disabled (enable c)
         = Component.times_disabled c)
  /\ (forall c : component,
      Component.isEnabled (disable c) = false
      /\ Component.fired (disable c)
         = Component.fired c ++ [Component.OnDisabled]
      /\ Component.times_disabled (disable c)
         = Datatypes.S (Component.times_disabled c)
      /\ Component.times_enabled (disable c)
         = Component.times_enabled c)
  /\ (forall config s ks,
      Forall (fun k => Component.is_CallDisable k = false) ks ->
      Component.times_disabled
        (perform_all (Component.constructor config s) ks) = 0%nat).
Proof.
  split; [| split].
  - intros c. unfold Component.times_enabled, Component.times_disabled.
    simpl. rewrite !count_hook_snoc. simpl. repeat split; lia.
  - intros c. unfold Component.times_enabled, Component.times_disabled.
    simpl. rewrite !count_hook_snoc. simpl. repeat split; lia.
  - intros config s ks Hks.
    destruct (hooks_counted (Component.constructor config s) ks)
      as [-> _].
    replace (List.filter Component.is_CallDisable ks)
      with (@nil (@Component.call Entity Class)).
    + reflexivity.
    + symmetry. induction Hks as [| k ks Hk _ IH]; simpl.
      * reflexivity.
      * rewrite Hk. exact IH.
Qed.

(** C6.  [getComponent] answers [null] for an unattached component,
    answers with the owning entity's lookup for an attached one, and
    never throws. *)
Theorem getComponent_absent_or_delegated (c : component) (cls : Class) :
  (Component.entity c = None ->
   Component.getComponent Entity_getComponent c cls = Normal None)
  /\ (forall e, Component.entity c = Some e ->
      Component.getComponent Entity_getComponent c cls
      = Normal (Entity_getComponent e cls))
  /\ ~ raises (Component.getComponent Entity_getComponent c cls).
Proof.
  unfold Component.getComponent, Component.call_getComponent, raises.
  destruct (Component.entity c) as [e |].
  - split; [discriminate |]. split.
    + intros e' [= ->]. reflexivity.
    + intros [m Hm]. discriminate.
  - split; [reflexivity |]. split.
    + discriminate.
    + intros [m Hm]. discriminate.
Qed.

End ComponentFacts.

Lemma lifecycle_hooks_fire_exactly_once_witness :
  Component.times_disabled
    (Component.perform_all (Entity := unit) (Class := unit)
       (fun _ s => s) Nat.succ Nat.pred (fun _ s => s) (fun s => s)
       (Component.constructor None 0%nat)
       [Component.CallEnable; Component.CallUpdate 16; Component.CallEnable;
        Component.CallReceiveEntity (Some tt); Component.CallDraw])
  = 0%nat.
Proof.
  apply (lifecycle_hooks_fire_exactly_once (Entity := unit) (Class := unit)
           (fun _ s => s) Nat.succ Nat.pred (fun _ s => s) (fun s => s)).
  repeat constructor.
Defined.

Lemma getComponent_absent_or_delegated_witness :
  Component.getComponent (Entity := nat) (Class := unit) (S := unit)
    (fun e _ => Some e)
    (Component._receiveEntity (fun _ s => s) (Some 7%nat)
       (Component.constructor None tt)) tt
  = Normal (Some 7%nat)
  /\ Component.getComponent (Entity := nat) (Class := unit) (S := unit)
       (fun e _ => Some e) (Component.constructor None tt) tt
     = Normal None.
Proof.
  split.
  - apply (getComponent_absent_or_delegated (fun e (_ : unit) => Some e)).
    reflexivity.
  - apply (getComponent_absent_or_delegated (fun e (_ : unit) => Some e)).
    reflexivity.
Defined.

(** ** The scene set of a canvas *)

Section CanvasFacts.
Context {Entity SceneObj : Type}.
Variable Scene_new : SceneObj.
Variable Scene_addChild : Entity -> SceneObj -> SceneObj.
Variable Scene_removeChild : Entity -> SceneObj -> SceneObj.

Let canvas : Type := @Canvas.Canvas SceneObj.
Let step : canvas -> @Canvas.op Entity -> canvas :=
  Canvas.step Scene_addChild Scene_removeChild.
Let run : canvas -> list (@Canvas.op Entity) -> canvas :=
  Canvas.run Scene_addChild Scene_removeChild.
Let spares_active : canvas -> list (@Canvas.op Entity) -> bool :=
  Canvas.spares_active Scene_addChild Scene_removeChild.

Lemma constructor_members (h : gmap Canvas.Scene SceneObj) :
  Canvas.active_is_member (Canvas.constructor Scene_new h)
  /\ Canvas.root_is_member (Canvas.constructor Scene_new h).
Proof.
  unfold Canvas.active_is_member, Canvas.root_is_member. simpl.
  split; set_solver.
Qed.

Lemma step_rootScene (c : canvas) o :
  Canvas.rootScene (step c o) = Canvas.rootScene c.
Proof. destruct o as [s | [e | s] | [e | s]]; reflexivity. Qed.

Lemma run_rootScene (c : canvas) ops :
  Canvas.rootScene (run c ops) = Canvas.rootScene c.
Proof.
  revert c. induction ops as [| o ops IH]; intros c; simpl.
  - reflexivity.
  - unfold run, Canvas.run in *. simpl. rewrite IH. apply step_rootScene.
Qed.

(** One step keeps the active scene in the set unless it is the
    removal of the active scene itself. *)
Lemma step_active_is_member (c : canvas) o :
  Canvas.removes (Canvas.activeScene c) o = false ->
  Canvas.active_is_member c ->
  Canvas.active_is_member (step c o).
Proof.
  unfold Canvas.active_is_member.
  destruct o as [s | [e | s] | [e | s]]; simpl; intros Hrm Hin;
    try set_solver.
  apply bool_decide_eq_false in Hrm. set_solver.
Qed.

(** One step keeps any scene [r] in the set unless it removes [r]. *)
Lemma step_keeps_member (c : canvas) o r :
  Canvas.removes r o = false ->
  r ∈ Canvas.scenes c ->
  r ∈ Canvas.scenes (step c o).
Proof.
  destruct o as [s | [e | s] | [e | s]]; simpl; intros Hrm Hin;
    try set_solver.
  apply bool_decide_eq_false in Hrm. set_solver.
Qed.

Lemma run_active_is_member (c : canvas) ops :
  spares_active c ops = true ->
  Canvas.active_is_member c ->
  Canvas.active_is_member (run c ops).
Proof.
  revert c. induction ops as [| o ops IH]; intros c Hsp Hin; simpl.
  - exact Hin.
  - simpl in Hsp. apply andb_true_iff in Hsp as [Ho Hrest].
    apply negb_true_iff in Ho.
    apply (IH (step c o)); [exact Hrest |].
    apply step_active_is_member; assumption.
Qed.

Lemma run_keeps_member (c : canvas) ops r :
  Forall (fun o => Canvas.removes r o = false) ops ->
  r ∈ Canvas.scenes c ->
  r ∈ Canvas.scenes (run c ops).
Proof.
  intros Hall. revert c.
  induction Hall as [| o ops Ho _ IH]; intros c Hin; simpl.
  - exact Hin.
  - apply (IH (step c o)). apply step_keeps_member; assumption.
Qed.

Lemma spares_active_take (c : canvas) ops n :
  spares_active c ops = true ->
  spares_active c (take n ops) = true.
Proof.
  revert c n. induction ops as [| o ops IH]; intros c [| n] Hsp;
    simpl; try reflexivity.
  simpl in Hsp. apply andb_true_iff in Hsp as [Ho Hrest].
  apply andb_true_iff. split; [exact Ho |]. apply IH. exact Hrest.
Qed.

(** C1, as the code has it.  After [new Canvas()] and at every moment
    of any sequence of [present], [addChild] and [removeChild] calls
    in which no [removeChild] is given the scene that is active at
    that moment, the active scene is a member of the scene set; and
    as long as no [removeChild] is given the root scene, the root
    scene stays the one created by the constructor and stays a
    member. *)
Theorem active_scene_member_unless_removed
    (h : gmap Canvas.Scene SceneObj) (ops : list (@Canvas.op Entity))
    (n : nat) :
  let c0 := Canvas.constructor Scene_new h in
  (spares_active c0 ops = true ->
   Canvas.active_is_member (run c0 (take n ops)))
  /\ (Forall (fun o => Canvas.removes (Canvas.rootScene c0) o = false) ops ->
      Canvas.rootScene (run c0 (take n ops)) = Canvas.rootScene c0
      /\ Canvas.root_is_member (run c0 (take n ops))).
Proof.
  intros c0. split.
  - intros Hsp. apply run_active_is_member.
    + apply spares_active_take. exact Hsp.
    + apply constructor_members.
  - intros Hall. split; [apply run_rootScene |].
    unfold Canvas.root_is_member. rewrite run_rootScene.
    apply run_keeps_member.
    + apply Forall_take. exact Hall.
    + apply constructor_members.
Qed.

End CanvasFacts.

(** C1 as stated fails: [removeChild] does not look at which scene is
    active, so removing the root scene right after construction leaves
    an active scene that is not in the scene set. *)
Lemma removeChild_of_active_scene_breaks_membership :
  let c := Canvas.demo_run
             [Canvas.RemoveChild
                (Canvas.ChildScene (Canvas.rootScene Canvas.demo_constructor))]
  in
  Canvas.activeScene c = Canvas.rootScene Canvas.demo_constructor
  /\ ~ Canvas.active_is_member c.
Proof.
  unfold Canvas.active_is_member. simpl. split; [reflexivity |].
  set_solver.
Qed.

Lemma active_scene_member_unless_removed_witness :
  let ops := [Canvas.AddChild (Canvas.ChildEntity 5%nat);
              Canvas.Present 9%positive;
              Canvas.RemoveChild (Canvas.ChildScene 1%positive);
              Canvas.AddChild (Canvas.ChildScene 4%positive);
              Canvas.RemoveChild (Canvas.ChildEntity 5%nat)] in
  Canvas.active_is_member (Canvas.demo_run (take 4 ops))
  /\ Canvas.root_is_member
       (Canvas.demo_run
          (take 2 [Canvas.Present 9%positive;
                   Canvas.RemoveChild (Canvas.ChildScene 9%positive)])).
Proof.
  split.
  - apply (active_scene_member_unless_removed [] Canvas.demo_addChild
             Canvas.demo_removeChild ∅).
    vm_compute. reflexivity.
  - apply (active_scene_member_unless_removed [] Canvas.demo_addChild
             Canvas.demo_removeChild ∅
             [Canvas.Present 9%positive;
              Canvas.RemoveChild (Canvas.ChildScene 9%positive)] 2).
    vm_compute. repeat constructor.
Defined.

(** ** Hit-testing *)

Section HitTestFacts.
Context {Entity Component Geometry Point : Type}.
Context `{Countable Entity}.
Variable descendants : Entity -> list Entity.
Variable getComponent_Geometry : Entity -> option Geometry.
Variable worldToLocal : Entity -> Point -> Point.
Variable containsPoint : Geometry -> Point -> bool.
Variable sort : list Entity -> list Component.
Variable isDebugOverlay : Component -> bool.
Variable component_entity : Component -> Entity.

Let underCursor : Point -> Entity -> bool :=
  HitTest.underCursor getComponent_Geometry worldToLocal containsPoint.
Let entsUnderCursor : Entity -> Point -> list Entity :=
  HitTest.entsUnderCursor descendants getComponent_Geometry worldToLocal
    containsPoint.
Let collect := HitTest.collect (Entity := Entity) component_entity.
Let useEntitiesAtPoint : Entity -> Point -> list Entity :=
  HitTest.useEntitiesAtPoint descendants getComponent_Geometry
    worldToLocal containsPoint sort isDebugOverlay component_entity.

Lemma collect_first_seen cs seen acc :
  collect cs seen acc
  = acc ++ HitTest.first_seen seen (map component_entity cs).
Proof.
  revert seen acc. induction cs as [| c cs IH]; intros seen acc; simpl.
  - rewrite app_nil_r. reflexivity.
  - destruct (bool_decide (component_entity c ∈ seen)).
    + apply IH.
    + unfold collect in *. simpl. rewrite IH, <- app_assoc. reflexivity.
Qed.

Lemma first_seen_all_seen (seen : gset Entity) l :
  Forall (fun x => x ∈ seen) l -> HitTest.first_seen seen l = [].
Proof.
  induction 1 as [| x l Hx _ IH]; simpl.
  - reflexivity.
  - rewrite bool_decide_eq_true_2 by exact Hx. exact IH.
Qed.

Lemma first_seen_app (seen : gset Entity) l1 l2 :
  HitTest.first_seen seen (l1 ++ l2)
  = HitTest.first_seen seen l1
    ++ HitTest.first_seen (list_to_set l1 ∪ seen) l2.
Proof.
  revert seen. induction l1 as [| x l1 IH]; intros seen; simpl.
  - f_equal. set_solver.
  - destruct (bool_decide (x ∈ seen)) eqn:Hx.
    + rewrite IH. f_equal. f_equal.
      apply bool_decide_eq_true in Hx. set_solver.
    + rewrite IH. simpl. f_equal. f_equal. f_equal. set_solver.
Qed.

Lemma remove_dups_snoc (l : list Entity) x :
  remove_dups (l ++ [x]) = remove_dups (filter (fun y => y <> x) l) ++ [x].
Proof.
  induction l as [| y l IH]; [reflexivity |].
  rewrite <- app_comm_cons. cbn [remove_dups].
  destruct (decide (y = x)) as [-> | Hne].
  - rewrite filter_cons_False by tauto.
    destruct (decide_rel elem_of x (l ++ [x])) as [_ | Hnin];
      [exact IH | set_solver].
  - rewrite filter_cons_True by exact Hne. cbn [remove_dups].
    destruct (decide_rel elem_of y (l ++ [x])) as [Hin | Hnin];
      destruct (decide_rel elem_of y (filter (fun y => y <> x) l))
        as [Hin' | Hnin'].
    + exact IH.
    + exfalso. apply Hnin'. apply list_elem_of_filter. set_solver.
    + exfalso. apply Hnin. apply list_elem_of_filter in Hin'. set_solver.
    + rewrite IH. reflexivity.
Qed.

Lemma filter_rev (P : Entity -> Prop) `{!forall x, Decision (P x)} l :
  filter P (rev l) = rev (filter P l).
Proof.
  rewrite !rev_alt. change (filter P (reverse l) = reverse (filter P l)).
  apply filter_reverse.
Qed.

Lemma first_seen_remove_dups (seen : gset Entity) l :
  HitTest.first_seen seen l
  = rev (remove_dups (rev (filter (fun y => y ∉ seen) l))).
Proof.
  revert seen. induction l as [| x l IH]; intros seen; simpl.
  - reflexivity.
  - destruct (bool_decide (x ∈ seen)) eqn:Hx.
    + apply bool_decide_eq_true in Hx.
      rewrite filter_cons_False by tauto. apply IH.
    + apply bool_decide_eq_false in Hx.
      rewrite filter_cons_True by exact Hx. simpl.
      rewrite remove_dups_snoc, rev_app_distr. simpl. f_equal.
      rewrite IH. f_equal. f_equal.
      rewrite filter_rev, list_filter_filter.
      f_equal. apply list_filter_iff. intros y. set_solver.
Qed.

Lemma first_seen_empty (l : list Entity) :
  HitTest.first_seen ∅ l = rev (remove_dups (rev l)).
Proof.
  rewrite first_seen_remove_dups. do 3 f_equal.
  induction l as [| x l IH]; [reflexivity |].
  rewrite filter_cons_True by set_solver. rewrite IH. reflexivity.
Qed.

(** C4.  When fewer than two of the root and its descendants have a
    geometry component whose shape contains the point, taken into the
    entity's local space, the hook returns exactly those entities, in
    tree order and without any ranking; when none has, it returns the
    empty array. *)
Theorem fewer_than_two_matches_unranked (rootEnt : Entity)
    (worldPos : Point) :
  let matches := fun ent =>
    match getComponent_Geometry ent with
    | Some geometry => containsPoint geometry (worldToLocal ent worldPos)
    | None => false
    end in
  let candidates := rootEnt :: descendants rootEnt in
  ((length (List.filter matches candidates) < 2)%nat ->
   useEntitiesAtPoint rootEnt worldPos = List.filter matches candidates
   /\ forall ent,
        ent ∈ useEntitiesAtPoint rootEnt worldPos
        <-> ent ∈ candidates
            /\ exists geometry,
                 getComponent_Geometry ent = Some geometry
                 /\ containsPoint geometry (worldToLocal ent worldPos)
                    = true)
  /\ (Forall (fun ent => matches ent = false) candidates ->
      useEntitiesAtPoint rootEnt worldPos = []).
Proof.
  intros matches candidates.
  assert (Hunder : entsUnderCursor rootEnt worldPos
                   = List.filter matches candidates) by reflexivity.
  assert (Hshort : (length (List.filter matches candidates) < 2)%nat ->
                   useEntitiesAtPoint rootEnt worldPos
                   = List.filter matches candidates).
  { intros Hlt. unfold useEntitiesAtPoint, HitTest.useEntitiesAtPoint.
    fold entsUnderCursor. rewrite Hunder.
    destruct (Nat.ltb_spec (length (List.filter matches candidates)) 2);
      [reflexivity | lia]. }
  split.
  - intros Hlt. split; [exact (Hshort Hlt) |].
    intros ent. rewrite (Hshort Hlt), !list_elem_of_In, List.filter_In.
    unfold matches. split.
    + intros [Hin Hm]. split; [exact Hin |].
      destruct (getComponent_Geometry ent) as [geometry |];
        [| discriminate].
      exists geometry. auto.
    + intros [Hin (geometry & Hg & Hc)]. rewrite Hg. auto.
  - intros Hnone.
    assert (Hnil : List.filter matches candidates = []).
    { revert Hnone. generalize candidates. intros l.
      induction l as [| e l IH]; intros Hnone; [reflexivity |].
      apply Forall_cons in Hnone as [He Hl]. cbn [List.filter].
      rewrite He. apply IH. exact Hl. }
    rewrite Hshort; rewrite Hnil; simpl; [reflexivity | lia].
Qed.

(** C3, as the code has it.  With two or more entities under the
    point, the hook gives those entities to the draw-order sort, keeps
    of the resulting components the ones [isDebugOverlay] accepts,
    reverses them and returns their entities without repetition: the
    reversed draw order of the kept components' entities, each entity
    standing where its last-drawn kept component is. *)
Theorem ranking_keeps_isDebugOverlay_components (rootEnt : Entity)
    (worldPos : Point) :
  (2 <= length (entsUnderCursor rootEnt worldPos))%nat ->
  let under := entsUnderCursor rootEnt worldPos in
  useEntitiesAtPoint rootEnt worldPos
  = collect (HitTest.rankedComponents sort isDebugOverlay under) ∅ []
  /\ HitTest.rankedComponents sort isDebugOverlay under
     = rev (List.filter isDebugOverlay (sort under))
  /\ useEntitiesAtPoint rootEnt worldPos
     = rev (remove_dups
              (map component_entity
                 (List.filter isDebugOverlay (sort under)))).
Proof.
  intros Hlen under.
  assert (Huse : useEntitiesAtPoint rootEnt worldPos
                 = collect (HitTest.rankedComponents sort isDebugOverlay
                              under) ∅ []).
  { unfold useEntitiesAtPoint, HitTest.useEntitiesAtPoint.
    fold entsUnderCursor. fold under.
    destruct (Nat.ltb_spec (length under) 2); [| reflexivity].
    unfold under in *. lia. }
  split; [exact Huse |]. split; [reflexivity |].
  rewrite Huse, collect_first_seen. simpl.
  rewrite first_seen_empty. unfold HitTest.rankedComponents.
  rewrite map_rev, rev_involutive. reflexivity.
Qed.

(** C2.  When [A] and [B] are the entities whose geometry contains the
    point, [A] before [B] in the tree, the hook returns [[B; A]].  The
    draw-order sort and [isDebugOverlay] are the engine's: of the
    components of [A] and [B] the filter keeps some of each (their
    geometry components, in the engine), and the draw order lists the
    kept ones of [A], added first, before those of [B]. *)
Theorem later_entity_ranks_first (rootEnt A B : Entity)
    (worldPos : Point) (keptA keptB : list Component) :
  A <> B ->
  List.filter
    (fun ent =>
       match getComponent_Geometry ent with
       | Some geometry => containsPoint geometry (worldToLocal ent worldPos)
       | None => false
       end)
    (rootEnt :: descendants rootEnt) = [A; B] ->
  List.filter isDebugOverlay (sort [A; B]) = keptA ++ keptB ->
  keptA <> [] ->
  keptB <> [] ->
  Forall (fun c => component_entity c = A) keptA ->
  Forall (fun c => component_entity c = B) keptB ->
  useEntitiesAtPoint rootEnt worldPos = [B; A].
Proof.
  intros Hne Hunder Hsort HnA HnB HA HB.
  unfold useEntitiesAtPoint, HitTest.useEntitiesAtPoint,
    HitTest.entsUnderCursor, HitTest.underCursor.
  rewrite Hunder. simpl.
  fold collect. rewrite collect_first_seen. simpl.
  unfold HitTest.rankedComponents.
  rewrite Hsort, rev_app_distr, map_app, first_seen_app.
  assert (Hkept : forall (E : Entity) cs,
             Forall (fun c => component_entity c = E) cs ->
             cs <> [] ->
             exists n, map component_entity (rev cs) = E :: repeat E n).
  { intros E cs Hall Hcs.
    assert (Hrep : forall l, Forall (fun c => component_entity c = E) l ->
              map component_entity l = repeat E (length l)).
    { induction 1 as [| c l Hc _ IH]; simpl; [reflexivity |].
      rewrite Hc, IH. reflexivity. }
    assert (Hf : Forall (fun c => component_entity c = E) (rev cs)).
    { apply List.Forall_forall. intros c Hc.
      apply List.in_rev in Hc.
      rewrite List.Forall_forall in Hall. apply Hall. exact Hc. }
    rewrite (Hrep _ Hf).
    destruct (rev cs) as [| c l] eqn:Hr.
    - exfalso. apply Hcs.
      rewrite <- (rev_involutive cs), Hr. reflexivity.
    - exists (length l). reflexivity. }
  destruct (Hkept B keptB HB HnB) as [nB ->].
  destruct (Hkept A keptA HA HnA) as [nA ->].
  assert (Hrepeat : forall (E : Entity) n seen,
             E ∈ seen -> HitTest.first_seen seen (repeat E n) = []).
  { intros E n seen Hin. apply first_seen_all_seen.
    apply List.Forall_forall. intros x Hx.
    apply List.repeat_spec in Hx. subst x. exact Hin. }
  simpl.
  rewrite bool_decide_eq_false_2 by set_solver.
  rewrite (Hrepeat B nB) by set_solver. simpl.
  rewrite bool_decide_eq_false_2.
  - rewrite (Hrepeat A nA) by set_solver. reflexivity.
  - rewrite !elem_of_union, elem_of_singleton, elem_of_list_to_set.
    intros [[Heq | Hin] | Hin].
    + congruence.
    + apply list_elem_of_In, List.repeat_spec in Hin. congruence.
    + set_solver.
Qed.

End HitTestFacts.

Lemma fewer_than_two_matches_unranked_witness :
  HitTest.world_entitiesAtPoint HitTest.squares_apart 3 0%nat (210, 10)
  = [2%nat]
  /\ HitTest.world_entitiesAtPoint HitTest.squares_apart 3 0%nat (90, 90)
     = [].
Proof.
  split.
  - apply (fewer_than_two_matches_unranked
             (HitTest.world_descendants HitTest.squares_apart 3)
             (HitTest.world_getGeometry HitTest.squares_apart)
             (HitTest.world_toLocal HitTest.squares_apart)
             HitTest.rect_contains
             (HitTest.world_sort HitTest.squares_apart)
             HitTest.debugOverlay HitTest.owner 0%nat (210, 10)).
    vm_compute. lia.
  - apply (fewer_than_two_matches_unranked
             (HitTest.world_descendants HitTest.squares_apart 3)
             (HitTest.world_getGeometry HitTest.squares_apart)
             (HitTest.world_toLocal HitTest.squares_apart)
             HitTest.rect_contains
             (HitTest.world_sort HitTest.squares_apart)
             HitTest.debugOverlay HitTest.owner 0%nat (90, 90)).
    vm_compute. repeat constructor.
Defined.

Lemma later_entity_ranks_first_witness :
  HitTest.world_entitiesAtPoint HitTest.squares 3 0%nat (10, 10)
  = [2%nat; 1%nat].
Proof.
  apply (later_entity_ranks_first
           (HitTest.world_descendants HitTest.squares 3)
           (HitTest.world_getGeometry HitTest.squares)
           (HitTest.world_toLocal HitTest.squares)
           HitTest.rect_contains
           (HitTest.world_sort HitTest.squares)
           HitTest.debugOverlay HitTest.owner 0%nat 1%nat 2%nat (10, 10)
           [HitTest.mkPart 1 (Some (HitTest.mkRect 100 100)) true]
           [HitTest.mkPart 2 (Some (HitTest.mkRect 50 50)) true]).
  - lia.
  - vm_compute. reflexivity.
  - vm_compute. reflexivity.
  - discriminate.
  - discriminate.
  - repeat constructor.
  - repeat constructor.
Defined.

(** C3 as stated fails: on the two squares of the specification the
    code's ranking step keeps both geometry components, which are debug
    overlays, while the step the specification describes (the geometry
    components that are not debug overlays, reversed) keeps none. *)
Lemma ranking_filter_is_not_the_described_one :
  let w := HitTest.squares in
  let matched := HitTest.under w (10, 10) in
  HitTest.rankedComponents (HitTest.world_sort w) HitTest.debugOverlay
    matched
  = [HitTest.mkPart 2 (Some (HitTest.mkRect 50 50)) true;
     HitTest.mkPart 1 (Some (HitTest.mkRect 100 100)) true]
  /\ HitTest.rankedComponents_spec (HitTest.world_sort w)
       HitTest.debugOverlay HitTest.has_shape matched = []
  /\ HitTest.rankedComponents (HitTest.world_sort w) HitTest.debugOverlay
       matched
     <> HitTest.rankedComponents_spec (HitTest.world_sort w)
          HitTest.debugOverlay HitTest.has_shape matched.
Proof.
  split; [| split].
  - vm_compute. reflexivity.
  - vm_compute. reflexivity.
  - vm_compute. discriminate.
Qed.

Lemma ranking_keeps_isDebugOverlay_components_witness :
  let w := HitTest.squares in
  HitTest.world_entitiesAtPoint w 3 0%nat (10, 10)
  = rev (remove_dups
           (map HitTest.owner
              (List.filter HitTest.debugOverlay
                 (HitTest.world_sort w (HitTest.under w (10, 10)))))).
Proof.
  apply (ranking_keeps_isDebugOverlay_components
           (HitTest.world_descendants HitTest.squares 3)
           (HitTest.world_getGeometry HitTest.squares)
           (HitTest.world_toLocal HitTest.squares)
           HitTest.rect_contains
           (HitTest.world_sort HitTest.squares)
           HitTest.debugOverlay HitTest.owner 0%nat (10, 10)).
  vm_compute. lia.
Defined.

(** ** Keyboard *)

Lemma emit_trace es st :
  Keyboard.trace (Keyboard.emit es st) = Keyboard.trace st ++ es.
Proof. reflexivity. Qed.

Lemma processKeydown_effects event st :
  exists es,
    Keyboard.trace (Keyboard.processKeydown event st)
    = Keyboard.trace st ++ es
    /\ Keyboard.listener_calls es = []
    /\ Keyboard.listeners (Keyboard.processKeydown event st)
       = Keyboard.listeners st.
Proof.
  unfold Keyboard.processKeydown.
  exists ((if Keyboard.preventDefault st then [Keyboard.PreventDefault]
           else [])
          ++ (if Keyboard.firstKeyHasHappened st then []
              else map Keyboard.RunFirstKeyHandler
                     (Keyboard.pendingFirstKeyHandlers st))).
  assert (Hnone : forall hs,
             Keyboard.listener_calls (map Keyboard.RunFirstKeyHandler hs)
             = []).
  { induction hs as [| h hs IH]; [reflexivity | exact IH]. }
  unfold Keyboard.listener_calls in *.
  destruct st as [first pending prevent keys ls tr],
    event as [k [|]]; destruct first, prevent; simpl;
    rewrite ?app_nil_r, ?List.filter_app, ?Hnone, <- ?app_assoc;
    repeat split; reflexivity.
Qed.

Lemma processKeyup_effects event st :
  Keyboard.trace (Keyboard.processKeyup event st)
  = Keyboard.trace st ++ [Keyboard.PreventDefault]
  /\ Keyboard.listeners (Keyboard.processKeyup event st)
     = Keyboard.listeners st.
Proof.
  unfold Keyboard.processKeyup.
  destruct (Keyboard.repeat event); split; reflexivity.
Qed.

(** C8.  Creating a keyboard component touches no listener; firing
    [onEnabled] makes exactly the two [addEventListener] calls (for
    [keydown] and [keyup]) and firing [onDisabled] exactly the two
    [removeEventListener] calls; every other thing that happens to the
    component makes no listener call and leaves the listeners of
    [document] as they were. *)
Theorem listeners_change_only_in_hooks :
  (forall preventDefault_opt st,
      Keyboard.trace (Keyboard.Keyboard preventDefault_opt st)
      = Keyboard.trace st
      /\ Keyboard.listeners (Keyboard.Keyboard preventDefault_opt st)
         = Keyboard.listeners st)
  /\ (forall st a,
      exists es,
        Keyboard.trace (Keyboard.act st a) = Keyboard.trace st ++ es
        /\ Keyboard.listener_calls es
           = match a with
             | Keyboard.FireOnEnabled =>
                 [Keyboard.AddEventListener "keydown"
                    Keyboard.processKeydown_ref;
                  Keyboard.AddEventListener "keyup"
                    Keyboard.processKeyup_ref]
             | Keyboard.FireOnDisabled =>
                 [Keyboard.RemoveEventListener "keydown"
                    Keyboard.processKeydown_ref;
                  Keyboard.RemoveEventListener "keyup"
                    Keyboard.processKeyup_ref]
             | _ => []
             end
        /\ (Keyboard.is_hook a = false ->
            Keyboard.listeners (Keyboard.act st a) = Keyboard.listeners st)).
Proof.
  split.
  - intros opt st. split; reflexivity.
  - intros st a. destruct a as [| | event | event | handler | u d l r].
    + eexists. split; [| split; [| discriminate]].
      * unfold Keyboard.act, Keyboard.onEnabled_callback,
          Keyboard.addEventListener.
        rewrite !emit_trace.
        repeat match goal with
               | |- context [bool_decide ?P] => destruct (bool_decide P)
               end; simpl; rewrite <- app_assoc; reflexivity.
      * reflexivity.
    + eexists. split; [| split; [| discriminate]].
      * unfold Keyboard.act, Keyboard.onDisabled_callback,
          Keyboard.removeEventListener.
        rewrite !emit_trace. simpl. rewrite <- app_assoc. reflexivity.
      * reflexivity.
    + simpl. destruct (bool_decide _).
      * destruct (processKeydown_effects event st) as (es & Ht & Hc & Hl).
        exists es. auto.
      * exists []. rewrite app_nil_r. auto.
    + simpl. destruct (bool_decide _).
      * destruct (processKeyup_effects event st) as (Ht & Hl).
        exists [Keyboard.PreventDefault]. auto.
      * exists []. rewrite app_nil_r. auto.
    + exists []. simpl. rewrite app_nil_r. auto.
    + exists []. simpl. rewrite app_nil_r. auto.
Qed.

Lemma listeners_change_only_in_hooks_witness :
  Keyboard.listeners
    (Keyboard.act (Keyboard.onEnabled_callback Keyboard.initial)
       (Keyboard.Keydown (Keyboard.mkEvent "w" false)))
  = Keyboard.listeners (Keyboard.onEnabled_callback Keyboard.initial).
Proof.
  destruct listeners_change_only_in_hooks as [_ Hact].
  destruct (Hact (Keyboard.onEnabled_callback Keyboard.initial)
              (Keyboard.Keydown (Keyboard.mkEvent "w" false)))
    as (es & _ & _ & Hsame).
  apply Hsame. reflexivity.
Defined.

Section vectorFromKeysFacts.
Variable toUpperCase : string -> string.

Let held := Keyboard.held toUpperCase.

(** C9.  When the up and the down key are both held and neither the
    left nor the right key is, the vector has magnitude [0]; likewise
    when the left and the right key are both held and neither the up
    nor the down key is. *)
Theorem opposing_keys_cancel (st : Keyboard.state)
    (upKey downKey leftKey rightKey : string) :
  let pressedKeys := Keyboard.pressed st in
  (held pressedKeys upKey = true /\ held pressedKeys downKey = true
   /\ held pressedKeys leftKey = false
   /\ held pressedKeys rightKey = false)
  \/ (held pressedKeys leftKey = true /\ held pressedKeys rightKey = true
      /\ held pressedKeys upKey = false
      /\ held pressedKeys downKey = false) ->
  Keyboard.magnitude
    (Keyboard.vectorFromKeys toUpperCase st upKey downKey leftKey
       rightKey) = 0.
Proof.
  intros pressedKeys Hkeys. unfold Keyboard.vectorFromKeys.
  fold held. fold pressedKeys.
  destruct Hkeys as [(-> & -> & -> & ->) | (-> & -> & -> & ->)];
    reflexivity.
Qed.

End vectorFromKeysFacts.

Lemma opposing_keys_cancel_witness :
  Keyboard.magnitude
    (Keyboard.vectorFromKeys Keyboard.upper
       (Keyboard.set_pressed {[ "w"%string; "S"%string ]} Keyboard.initial)
       "w" "s" "a" "d") = 0
  /\ Keyboard.magnitude
       (Keyboard.vectorFromKeys Keyboard.upper
          (Keyboard.set_pressed {[ "A"%string; "d"%string ]} Keyboard.initial)
          "w" "s" "a" "d") = 0.
Proof.
  split.
  - apply (opposing_keys_cancel Keyboard.upper). left.
    vm_compute. repeat split; reflexivity.
  - apply (opposing_keys_cancel Keyboard.upper). right.
    vm_compute. repeat split; reflexivity.
Defined.

(** ** Tiled *)

Lemma find_has_tag_is_node tagName cs e :
  List.find (Tiled.has_tag tagName) cs = Some e -> Tiled.is_node e = true.
Proof.
  intros Hfind. apply List.find_some in Hfind as [_ Htag].
  destruct e; [discriminate | reflexivity].
Qed.

(** [getElementByTagName] finds the first child element of that name. *)
Lemma getElementByTagName_first_child parent tagName :
  Tiled.getElementByTagName parent tagName
  = Tiled.first_child parent tagName.
Proof.
  destruct parent as [s | t a [cs |]]; try reflexivity.
  unfold Tiled.first_child. simpl.
  destruct (List.find (Tiled.has_tag tagName) cs) as [e |] eqn:Hfind;
    [| reflexivity].
  rewrite (find_has_tag_is_node _ _ _ Hfind). reflexivity.
Qed.

Lemma is_number_dec v : Tiled.is_number v \/ ~ Tiled.is_number v.
Proof.
  destruct v as [[n | s |] |]; [left; eexists; reflexivity | ..];
    right; intros [n' Hn]; discriminate.
Qed.

Lemma is_string_dec v : Tiled.is_string v \/ ~ Tiled.is_string v.
Proof.
  destruct v as [[n | s |] |]; [| left; eexists; reflexivity | ..];
    right; intros [n' Hn]; discriminate.
Qed.

Lemma not_number_cases v :
  ~ Tiled.is_number v ->
  match v with Some (Tiled.VNumber _) => False | _ => True end.
Proof.
  intros Hn. destruct v as [[n | s |] |]; try exact I.
  apply Hn. eexists. reflexivity.
Qed.

Lemma not_string_cases v :
  ~ Tiled.is_string v ->
  match v with Some (Tiled.VString _) => False | _ => True end.
Proof.
  intros Hn. destruct v as [[n | s |] |]; try exact I.
  apply Hn. eexists. reflexivity.
Qed.

Section TiledFacts.
Variable Number : string -> Tiled.number.
Context {Grid SpriteSheet : Type}.
Variable Grid_new :
  Tiled.number -> Tiled.number -> Tiled.number -> completion Grid.
Variable Grid_setData : list Tiled.number -> Grid -> completion Grid.
Variable SpriteSheet_new :
  string -> Tiled.number -> Tiled.number -> SpriteSheet.

Let Tileset := Tiled.Tileset SpriteSheet_new.
Let Layer := Tiled.Layer Number Grid_new Grid_setData.

Lemma Tileset_problem_throws data m :
  Tiled.tileset_problem data m -> Tileset data = Throw m.
Proof.
  unfold Tileset.
  destruct 1 as [s | t a c Ht | a | a cs Hc | a cs img Hc Hs
                 | a cs img Hc [u Hs] Hw
                 | a cs img Hc [u Hs] [w Hw] Hh];
    unfold Tiled.Tileset; try reflexivity.
  - rewrite bool_decide_eq_false_2 by exact Ht. reflexivity.
  - rewrite getElementByTagName_first_child, Hc. reflexivity.
  - rewrite getElementByTagName_first_child, Hc. simpl.
    apply not_string_cases in Hs.
    destruct (Tiled.attributes_of img !! "source"%string)
      as [[n | s |] |]; try reflexivity. destruct Hs.
  - rewrite getElementByTagName_first_child, Hc. simpl. rewrite Hs.
    apply not_number_cases in Hw.
    destruct (a !! "tilewidth"%string) as [[n | s |] |];
      try reflexivity. destruct Hw.
  - rewrite getElementByTagName_first_child, Hc. simpl. rewrite Hs, Hw.
    apply not_number_cases in Hh.
    destruct (a !! "tileheight"%string) as [[n | s |] |];
      try reflexivity. destruct Hh.
Qed.

Lemma Tileset_ok_returns data :
  Tiled.tileset_ok data -> returns (Tileset data).
Proof.
  unfold Tileset. destruct 1 as [a cs img Hc [u Hs] [w Hw] [h Hh]].
  unfold Tiled.Tileset.
  rewrite getElementByTagName_first_child, Hc. simpl.
  rewrite Hs, Hw, Hh. eexists. reflexivity.
Qed.

Lemma tileset_ok_or_problem data :
  Tiled.tileset_ok data \/ exists m, Tiled.tileset_problem data m.
Proof.
  destruct data as [s | t a [cs |]].
  - right. eexists. constructor.
  - destruct (decide (t = "tileset"%string)) as [-> | Ht].
    2: { right. eexists. apply Tiled.tileset_wrong_tag. exact Ht. }
    destruct (Tiled.first_child (Tiled.Node "tileset" a (Some cs)) "image")
      as [img |] eqn:Hc.
    2: { right. eexists. apply Tiled.tileset_no_image. exact Hc. }
    destruct (is_string_dec (Tiled.attributes_of img !! "source"%string))
      as [Hs | Hs].
    2: { right. eexists. eapply Tiled.tileset_source_not_string; eauto. }
    destruct (is_number_dec (a !! "tilewidth"%string)) as [Hw | Hw].
    2: { right. eexists.
         eapply Tiled.tileset_tilewidth_not_number; eauto. }
    destruct (is_number_dec (a !! "tileheight"%string)) as [Hh | Hh].
    2: { right. eexists.
         eapply Tiled.tileset_tileheight_not_number; eauto. }
    left. econstructor; eauto.
  - destruct (decide (t = "tileset"%string)) as [-> | Ht].
    + right. eexists. apply Tiled.tileset_no_children.
    + right. eexists. apply Tiled.tileset_wrong_tag. exact Ht.
Qed.

Lemma Layer_problem_throws layer m :
  Tiled.layer_problem layer m -> Layer layer = Throw m.
Proof.
  unfold Layer.
  destruct 1 as [s | t a c Ht | a c Hw | a c [w Hw] Hh
                 | a c [w Hw] [h Hh] Hd
                 | a c dataEl [w Hw] [h Hh] Hd He];
    unfold Tiled.Layer; try reflexivity.
  - rewrite bool_decide_eq_false_2 by exact Ht. reflexivity.
  - simpl. apply not_number_cases in Hw.
    destruct (a !! "width"%string) as [[n | s |] |];
      try reflexivity. destruct Hw.
  - simpl. rewrite Hw. apply not_number_cases in Hh.
    destruct (a !! "height"%string) as [[n | s |] |];
      try reflexivity. destruct Hh.
  - simpl negb. cbv iota. rewrite Hw, Hh.
    rewrite getElementByTagName_first_child, Hd. reflexivity.
  - simpl negb. cbv iota. rewrite Hw, Hh.
    rewrite getElementByTagName_first_child, Hd.
    rewrite bool_decide_eq_false_2 by exact He. reflexivity.
Qed.

(** What [Layer] does once its five checks have passed: it builds the
    grid, and what the grid throws is what [Layer] throws. *)
Lemma Layer_ok_value a c dataEl width height :
  a !! "width"%string = Some (Tiled.VNumber width) ->
  a !! "height"%string = Some (Tiled.VNumber height) ->
  Tiled.first_child (Tiled.Node "layer" a c) "data" = Some dataEl ->
  Tiled.attributes_of dataEl !! "encoding"%string
  = Some (Tiled.VString "csv") ->
  Layer (Tiled.Node "layer" a c)
  = (grid0 ← Grid_new width height (Tiled.Num 0);
     grid1 ← match Tiled.children_of dataEl with
             | Some cs => Grid_setData (Tiled.numbers_of Number cs) grid0
             | None => Normal grid0
             end;
     Normal
       {| Tiled.grid := grid1;
          Tiled.visible :=
            negb (bool_decide (a !! "visible"%string
                               = Some (Tiled.VNumber (Tiled.Num 0)))) |}).
Proof.
  intros Hw Hh Hd He. unfold Layer, Tiled.Layer.
  simpl negb. cbv iota. rewrite Hw, Hh.
  rewrite getElementByTagName_first_child, Hd.
  rewrite bool_decide_eq_true_2 by exact He. reflexivity.
Qed.

Lemma layer_ok_or_problem layer :
  Tiled.layer_ok layer \/ exists m, Tiled.layer_problem layer m.
Proof.
  destruct layer as [s | t a c].
  - right. eexists. constructor.
  - destruct (decide (t = "layer"%string)) as [-> | Ht].
    2: { right. eexists. apply Tiled.layer_wrong_tag. exact Ht. }
    destruct (is_number_dec (a !! "width"%string)) as [Hw | Hw].
    2: { right. eexists. apply Tiled.layer_width_not_number. exact Hw. }
    destruct (is_number_dec (a !! "height"%string)) as [Hh | Hh].
    2: { right. eexists. apply Tiled.layer_height_not_number; eauto. }
    destruct (Tiled.first_child (Tiled.Node "layer" a c) "data")
      as [dataEl |] eqn:Hd.
    2: { right. eexists. apply Tiled.layer_no_data; eauto. }
    destruct (decide (Tiled.attributes_of dataEl !! "encoding"%string
                      = Some (Tiled.VString "csv"))) as [He | He].
    + left. econstructor; eauto.
    + right. eexists. eapply Tiled.layer_not_csv; eauto.
Qed.

(** C7, as the code has it.  Data with one of the shape problems makes
    [Tiled.Tileset], respectively [Tiled.Layer], throw the error whose
    message describes that problem, and every input either has such a
    problem or is of the expected shape.  Data of the expected shape
    makes [Tiled.Tileset] return; it makes [Tiled.Layer] build the grid,
    return when [new Grid] and [grid.setData] return, and throw what
    they throw when they throw. *)
Theorem malformed_data_raises_described_error :
  (forall data m, Tiled.tileset_problem data m -> Tileset data = Throw m)
  /\ (forall data, Tiled.tileset_ok data -> returns (Tileset data))
  /\ (forall data,
         Tiled.tileset_ok data \/ exists m, Tiled.tileset_problem data m)
  /\ (forall layer m, Tiled.layer_problem layer m -> Layer layer = Throw m)
  /\ (forall layer,
         Tiled.layer_ok layer ->
         exists width height dataEl,
           Tiled.attributes_of layer !! "width"%string
           = Some (Tiled.VNumber width)
           /\ Tiled.attributes_of layer !! "height"%string
              = Some (Tiled.VNumber height)
           /\ Tiled.first_child layer "data" = Some dataEl
           /\ Layer layer
              = (grid0 ← Grid_new width height (Tiled.Num 0);
                 grid1 ← match Tiled.children_of dataEl with
                         | Some cs =>
                             Grid_setData (Tiled.numbers_of Number cs)
                               grid0
                         | None => Normal grid0
                         end;
                 Normal
                   {| Tiled.grid := grid1;
                      Tiled.visible :=
                        negb (bool_decide
                                (Tiled.attributes_of layer
                                 !! "visible"%string
                                 = Some (Tiled.VNumber (Tiled.Num 0)))) |})
           /\ (forall grid0 grid1,
                 Grid_new width height (Tiled.Num 0) = Normal grid0 ->
                 match Tiled.children_of dataEl with
                 | Some cs =>
                     Grid_setData (Tiled.numbers_of Number cs) grid0
                 | None => Normal grid0
                 end = Normal grid1 ->
                 returns (Layer layer))
           /\ (forall m,
                 Grid_new width height (Tiled.Num 0) = Throw m ->
                 Layer layer = Throw m)
           /\ (forall grid0 m,
                 Grid_new width height (Tiled.Num 0) = Normal grid0 ->
                 match Tiled.children_of dataEl with
                 | Some cs =>
                     Grid_setData (Tiled.numbers_of Number cs) grid0
                 | None => Normal grid0
                 end = Throw m ->
                 Layer layer = Throw m))
  /\ (forall layer,
         Tiled.layer_ok layer \/ exists m, Tiled.layer_problem layer m).
Proof.
  split; [exact Tileset_problem_throws |].
  split; [exact Tileset_ok_returns |].
  split; [exact tileset_ok_or_problem |].
  split; [exact Layer_problem_throws |].
  split; [| exact layer_ok_or_problem].
  intros layer Hok. destruct Hok as [a c dataEl [w Hw] [h Hh] Hd He].
  exists w, h, dataEl.
  pose proof (Layer_ok_value a c dataEl w h Hw Hh Hd He) as Hval.
  change (Tiled.attributes_of (Tiled.Node "layer" a c)) with a.
  repeat split; try assumption.
  - intros grid0 grid1 Hnew Hset. rewrite Hval, Hnew. simpl.
    rewrite Hset. eexists. reflexivity.
  - intros m Hnew. rewrite Hval, Hnew. reflexivity.
  - intros grid0 m Hnew Hset. rewrite Hval, Hnew. simpl.
    rewrite Hset. reflexivity.
Qed.

(** C10.  For a csv-encoded data element whose cells, separated by
    commas, are integers, [grid.setData] is given every cell's value
    minus one on the new grid, and the grid it answers with is the grid
    the layer returns. *)
Theorem grid_holds_cells_minus_one a c dataEl width height cs
    (zs : list Z) grid0 grid1 :
  a !! "width"%string = Some (Tiled.VNumber width) ->
  a !! "height"%string = Some (Tiled.VNumber height) ->
  Tiled.first_child (Tiled.Node "layer" a c) "data" = Some dataEl ->
  Tiled.attributes_of dataEl !! "encoding"%string
  = Some (Tiled.VString "csv") ->
  Tiled.children_of dataEl = Some cs ->
  Forall2
    (fun cell z =>
       Number (Tiled.trim cell) = Tiled.Num z /\ Tiled.safe_integer z)
    (Tiled.split "," (Tiled.join " " (map Tiled.to_string cs))) zs ->
  Grid_new width height (Tiled.Num 0) = Normal grid0 ->
  Grid_setData (map (fun z => Tiled.Num (z - 1)) zs) grid0 = Normal grid1 ->
  Layer (Tiled.Node "layer" a c)
  = Normal
      {| Tiled.grid := grid1;
         Tiled.visible :=
           negb (bool_decide (a !! "visible"%string
                              = Some (Tiled.VNumber (Tiled.Num 0)))) |}.
Proof.
  intros Hw Hh Hd He Hcs Hcells Hnew Hset.
  rewrite (Layer_ok_value a c dataEl width height Hw Hh Hd He), Hcs, Hnew.
  simpl.
  replace (Tiled.numbers_of Number cs)
    with (map (fun z => Tiled.Num (z - 1)) zs).
  - rewrite Hset. reflexivity.
  - unfold Tiled.numbers_of. clear Hset.
    induction Hcells as [| cell z cells zs' [Hcell _] _ IH]; simpl.
    + reflexivity.
    + rewrite Hcell, IH. reflexivity.
Qed.

End TiledFacts.

Lemma malformed_data_raises_described_error_witness :
  Tiled.demo_Tileset (Tiled.demo_tileset "map")
  = Throw "Invalid XML data passed to Tiled.Tileset"
  /\ returns (Tiled.demo_Tileset (Tiled.demo_tileset "tileset"))
  /\ Tiled.demo_Layer (Tiled.demo_layer "base64" "AQAAAA==")
     = Throw
         "XML layer data passed to Tiled.Layer does not use csv encoding. Only csv encoding is supported at this time.".
Proof.
  destruct (malformed_data_raises_described_error Tiled.Number_decimal
              Tiled.demo_Grid_new Tiled.demo_setData
              (fun url w h => (url, w, h)))
    as (Htp & Hto & _ & Hlp & _ & _).
  split; [| split].
  - apply Htp. apply Tiled.tileset_wrong_tag. discriminate.
  - apply Hto. unfold Tiled.demo_tileset.
    eapply Tiled.tileset_ok_intro.
    + reflexivity.
    + eexists. reflexivity.
    + eexists. reflexivity.
    + eexists. reflexivity.
  - apply Hlp. unfold Tiled.demo_layer.
    eapply Tiled.layer_not_csv.
    + eexists. reflexivity.
    + eexists. reflexivity.
    + reflexivity.
    + vm_compute. discriminate.
Defined.

Lemma demo_layer_ok csv : Tiled.layer_ok (Tiled.demo_layer "csv" csv).
Proof.
  unfold Tiled.demo_layer. eapply Tiled.layer_ok_intro.
  - eexists. reflexivity.
  - eexists. reflexivity.
  - reflexivity.
  - reflexivity.
Qed.

(** C7 as stated fails: a layer of two by two tiles with five cells
    passes every shape check of [Tiled.Layer], and the construction
    still throws, from [grid.setData]. *)
Lemma well_shaped_layer_can_still_throw :
  Tiled.layer_ok (Tiled.demo_layer "csv" "1,0,25,3,7")
  /\ raises (Tiled.demo_Layer (Tiled.demo_layer "csv" "1,0,25,3,7"))
  /\ ~ returns (Tiled.demo_Layer (Tiled.demo_layer "csv" "1,0,25,3,7")).
Proof.
  split; [apply demo_layer_ok |]. split.
  - eexists. vm_compute. reflexivity.
  - intros [api Hret]. vm_compute in Hret. discriminate.
Qed.

Lemma grid_holds_cells_minus_one_witness :
  Tiled.demo_Layer (Tiled.demo_layer "csv" "1,0, 25,3")
  = Normal
      {| Tiled.grid :=
           Tiled.mkGrid (Tiled.Num 2) (Tiled.Num 2) (Tiled.Num 0)
             (Some [Tiled.Num 0; Tiled.Num (-1); Tiled.Num 24; Tiled.Num 2]);
         Tiled.visible := true |}.
Proof.
  pose proof (grid_holds_cells_minus_one Tiled.Number_decimal
                Tiled.demo_Grid_new Tiled.demo_setData
                (<[ "width"%string := Tiled.VNumber (Tiled.Num 2) ]>
                   (<[ "height"%string := Tiled.VNumber (Tiled.Num 2) ]> ∅))
                (Some [Tiled.Node "data"
                         (<[ "encoding"%string := Tiled.VString "csv" ]> ∅)
                         (Some [Tiled.Text "1,0, 25,3"])])
                (Tiled.Node "data"
                   (<[ "encoding"%string := Tiled.VString "csv" ]> ∅)
                   (Some [Tiled.Text "1,0, 25,3"]))
                (Tiled.Num 2) (Tiled.Num 2) [Tiled.Text "1,0, 25,3"]
                [1; 0; 25; 3]
                (Tiled.mkGrid (Tiled.Num 2) (Tiled.Num 2) (Tiled.Num 0) None)
                (Tiled.mkGrid (Tiled.Num 2) (Tiled.Num 2) (Tiled.Num 0)
                   (Some [Tiled.Num 0; Tiled.Num (-1); Tiled.Num 24;
                          Tiled.Num 2]))) as Hlayer.
  apply Hlayer.
  - reflexivity.
  - reflexivity.
  - reflexivity.
  - reflexivity.
  - reflexivity.
  - match goal with
    | |- Forall2 ?P ?cells ?zs =>
        let cells' := eval vm_compute in cells in
        change (Forall2 P cells' zs)
    end.
    repeat (constructor;
            [split; [vm_compute; reflexivity
                    | unfold Tiled.safe_integer; simpl; lia] |]).
    constructor.
  - reflexivity.
  - reflexivity.
Defined.

(** * Further properties *)

(** ** Runs of calls on a component *)

Section ComponentRuns.
Context {Entity Class Instance S : Type}.
Variable Entity_getComponent : Entity -> Class -> option Instance.
Variable onEntityReceived_body : option Entity -> S -> S.
Variable onEnabled_body : S -> S.
Variable onDisabled_body : S -> S.
Variable update_body : Z -> S -> S.
Variable draw_body : S -> S.

Let component : Type := @Component.BaseComponent Entity S.
Let perform : component -> @Component.call Entity Class -> component :=
  Component.perform onEntityReceived_body onEnabled_body onDisabled_body
    update_body draw_body.
Let perform_all := Component.perform_all (Class := Class)
  onEntityReceived_body onEnabled_body onDisabled_body update_body
  draw_body.

Lemma perform_all_cons (c : component) k ks :
  perform_all c (k :: ks) = perform_all (perform c k) ks.
Proof. reflexivity. Qed.

(** X1.  Over any run of calls the hooks fire in the order of the calls:
    one [onEntityReceived] per [_receiveEntity], with the same
    argument, one [onEnabled] per [enable()], one [onDisabled] per
    [disable()], and nothing for [update], [draw] and [getComponent]. *)
Theorem hooks_fire_in_call_order (c : component) ks :
  Component.fired (perform_all c ks)
  = Component.fired c ++ Component.hooks_of ks.
Proof.
  revert c. induction ks as [| k ks IH]; intros c.
  - simpl. rewrite app_nil_r. reflexivity.
  - rewrite perform_all_cons, IH.
    unfold Component.hooks_of. simpl. rewrite app_assoc. f_equal.
    destruct k; simpl; rewrite ?app_nil_r; reflexivity.
Qed.

(** X2.  After any run of calls on a new component, [isEnabled] is what
    the last [enable()] or [disable()] of the run made it, and the
    configured value (or [true], when none was configured) if the run
    has neither. *)
Theorem isEnabled_follows_last_switch config s ks :
  Component.isEnabled (perform_all (Component.constructor config s) ks)
  = Component.last_switch
      (match config with Some b => b | None => true end) ks.
Proof.
  assert (Hrun : forall (c : component),
             Component.isEnabled (perform_all c ks)
             = Component.last_switch (Component.isEnabled c) ks).
  { induction ks as [| k ks IH]; intros c; [reflexivity |].
    rewrite perform_all_cons, IH. destruct k; reflexivity. }
  rewrite Hrun. reflexivity.
Qed.

Lemma entity_follows_last_received (c : component) ks :
  Component.entity (perform_all c ks)
  = Component.last_received (Component.entity c) ks.
Proof.
  revert c. induction ks as [| k ks IH]; intros c; [reflexivity |].
  rewrite perform_all_cons, IH. destruct k; reflexivity.
Qed.

(** X3.  After any run of calls on a new component, [getComponent]
    returns without throwing: [null] if the run never handed the
    component an entity or handed it [null] last, and otherwise the
    answer of the entity handed over last. *)
Theorem getComponent_asks_last_received_entity config s ks cls :
  Component.getComponent Entity_getComponent
    (perform_all (Component.constructor config s) ks) cls
  = Normal
      (match Component.last_received None ks with
       | Some e => Entity_getComponent e cls
       | None => None
       end).
Proof.
  unfold Component.getComponent.
  rewrite entity_follows_last_received. simpl.
  destruct (Component.last_received None ks); reflexivity.
Qed.

End ComponentRuns.

(** ** More on the scene set *)

Section CanvasMore.
Context {Entity SceneObj : Type}.
Variable Scene_addChild : Entity -> SceneObj -> SceneObj.
Variable Scene_removeChild : Entity -> SceneObj -> SceneObj.
Variable Scene_hasChild : Entity -> SceneObj -> bool.

Let canvas : Type := @Canvas.Canvas SceneObj.
Let hasChild : @Canvas.child Entity -> canvas -> bool :=
  Canvas.hasChild Scene_hasChild.
Let addChild : @Canvas.child Entity -> canvas -> canvas :=
  Canvas.addChild Scene_addChild.
Let removeChild : @Canvas.child Entity -> canvas -> canvas :=
  Canvas.removeChild Scene_removeChild.

(** X4.  [present(scene)] makes the scene the active one and a member
    of the set, keeps every scene that was a member (the scene that was
    active before among them), leaves the root scene and the scene
    objects alone, and presenting the same scene again changes
    nothing. *)
Theorem present_activates_and_keeps_members (scene : Canvas.Scene)
    (c : canvas) :
  Canvas.activeScene (Canvas.present scene c) = scene
  /\ scene ∈ Canvas.scenes (Canvas.present scene c)
  /\ Canvas.scenes c ⊆ Canvas.scenes (Canvas.present scene c)
  /\ Canvas.rootScene (Canvas.present scene c) = Canvas.rootScene c
  /\ Canvas.store (Canvas.present scene c) = Canvas.store c
  /\ Canvas.present scene (Canvas.present scene c) = Canvas.present scene c.
Proof.
  repeat split; try reflexivity; simpl; try set_solver.
  unfold Canvas.present. simpl. f_equal. set_solver.
Qed.

(** X5.  For scenes, [hasChild] reads back what [addChild] and
    [removeChild] did: a scene is a child right after it is added and
    is none right after it is removed, adding or removing one scene
    does not change the answer for another, and neither call changes
    the active or the root scene. *)
Theorem hasChild_reads_back_scenes (s s' : Canvas.Scene) (c : canvas) :
  hasChild (Canvas.ChildScene s) (addChild (Canvas.ChildScene s) c) = true
  /\ hasChild (Canvas.ChildScene s) (removeChild (Canvas.ChildScene s) c)
     = false
  /\ (s' <> s ->
      hasChild (Canvas.ChildScene s') (addChild (Canvas.ChildScene s) c)
      = hasChild (Canvas.ChildScene s') c
      /\ hasChild (Canvas.ChildScene s')
           (removeChild (Canvas.ChildScene s) c)
         = hasChild (Canvas.ChildScene s') c)
  /\ Canvas.activeScene (addChild (Canvas.ChildScene s) c)
     = Canvas.activeScene c
  /\ Canvas.activeScene (removeChild (Canvas.ChildScene s) c)
     = Canvas.activeScene c
  /\ Canvas.rootScene (removeChild (Canvas.ChildScene s) c)
     = Canvas.rootScene c.
Proof.
  split; [| split; [| split]].
  - simpl. apply bool_decide_eq_true. set_solver.
  - simpl. apply bool_decide_eq_false. set_solver.
  - intros Hne. split; simpl; apply bool_decide_ext; set_solver.
  - repeat split.
Qed.

(** X6.  Adding or removing an entity goes to the object of the active
    scene only: the scene set, the active scene, the root scene and the
    object of every other scene stay as they were, and the active
    scene's object is changed by the scene's own [addChild] or
    [removeChild]. *)
Theorem entity_children_go_to_active_scene (e : Entity) (c : canvas) :
  let c1 := addChild (Canvas.ChildEntity e) c in
  let c2 := removeChild (Canvas.ChildEntity e) c in
  (Canvas.scenes c1 = Canvas.scenes c
   /\ Canvas.activeScene c1 = Canvas.activeScene c
   /\ Canvas.rootScene c1 = Canvas.rootScene c)
  /\ (Canvas.scenes c2 = Canvas.scenes c
      /\ Canvas.activeScene c2 = Canvas.activeScene c
      /\ Canvas.rootScene c2 = Canvas.rootScene c)
  /\ (forall s, s <> Canvas.activeScene c ->
        Canvas.store c1 !! s = Canvas.store c !! s
        /\ Canvas.store c2 !! s = Canvas.store c !! s)
  /\ Canvas.store c1 !! Canvas.activeScene c
     = Scene_addChild e <$> Canvas.store c !! Canvas.activeScene c
  /\ Canvas.store c2 !! Canvas.activeScene c
     = Scene_removeChild e <$> Canvas.store c !! Canvas.activeScene c.
Proof.
  simpl. repeat split.
  - apply lookup_alter_ne. congruence.
  - apply lookup_alter_ne. congruence.
  - apply lookup_alter_eq.
  - apply lookup_alter_eq.
Qed.

End CanvasMore.

Lemma hasChild_reads_back_scenes_witness :
  Canvas.hasChild (Entity := nat) (fun e o => bool_decide (e ∈ o))
    (Canvas.ChildScene 1%positive)
    (Canvas.addChild Canvas.demo_addChild (Canvas.ChildScene 7%positive)
       Canvas.demo_constructor)
  = Canvas.hasChild (Entity := nat) (fun e o => bool_decide (e ∈ o))
      (Canvas.ChildScene 1%positive) Canvas.demo_constructor.
Proof.
  apply (hasChild_reads_back_scenes Canvas.demo_addChild
           Canvas.demo_removeChild (fun e o => bool_decide (e ∈ o))
           7%positive 1%positive Canvas.demo_constructor).
  discriminate.
Defined.

Lemma entity_children_go_to_active_scene_witness :
  Canvas.store
    (Canvas.addChild Canvas.demo_addChild (Canvas.ChildEntity 5%nat)
       (Canvas.present 2%positive Canvas.demo_constructor)) !! 1%positive
  = Canvas.store (Canvas.present 2%positive Canvas.demo_constructor)
    !! 1%positive.
Proof.
  apply (entity_children_go_to_active_scene Canvas.demo_addChild
           Canvas.demo_removeChild 5%nat
           (Canvas.present 2%positive Canvas.demo_constructor)).
  discriminate.
Defined.

(** ** More on hit-testing *)

Section HitTestMore.
Context {Entity Component Geometry Point : Type}.
Context `{Countable Entity}.
Variable descendants : Entity -> list Entity.
Variable getComponent_Geometry : Entity -> option Geometry.
Variable worldToLocal : Entity -> Point -> Point.
Variable containsPoint : Geometry -> Point -> bool.
Variable sort : list Entity -> list Component.
Variable isDebugOverlay : Component -> bool.
Variable component_entity : Component -> Entity.

Let underCursor : Point -> Entity -> bool :=
  HitTest.underCursor getComponent_Geometry worldToLocal containsPoint.
Let entsUnderCursor : Entity -> Point -> list Entity :=
  HitTest.entsUnderCursor descendants getComponent_Geometry worldToLocal
    containsPoint.
Let useEntitiesAtPoint : Entity -> Point -> list Entity :=
  HitTest.useEntitiesAtPoint descendants getComponent_Geometry
    worldToLocal containsPoint sort isDebugOverlay component_entity.

(** The entities of the components the ranking step keeps, in draw
    order. *)
Let kept (ents : list Entity) : list Entity :=
  map component_entity (List.filter isDebugOverlay (sort ents)).

Lemma short_result rootEnt worldPos :
  (length (entsUnderCursor rootEnt worldPos) < 2)%nat ->
  useEntitiesAtPoint rootEnt worldPos = entsUnderCursor rootEnt worldPos.
Proof.
  intros Hlt. unfold useEntitiesAtPoint, HitTest.useEntitiesAtPoint.
  fold entsUnderCursor.
  destruct (Nat.ltb_spec (length (entsUnderCursor rootEnt worldPos)) 2);
    [reflexivity | lia].
Qed.

Lemma ranked_result rootEnt worldPos :
  (2 <= length (entsUnderCursor rootEnt worldPos))%nat ->
  useEntitiesAtPoint rootEnt worldPos
  = rev (remove_dups (kept (entsUnderCursor rootEnt worldPos))).
Proof.
  intros Hge. unfold useEntitiesAtPoint, HitTest.useEntitiesAtPoint.
  fold entsUnderCursor.
  destruct (Nat.ltb_spec (length (entsUnderCursor rootEnt worldPos)) 2);
    [lia |].
  rewrite (collect_first_seen component_entity). simpl.
  rewrite (first_seen_empty descendants getComponent_Geometry worldToLocal
             containsPoint sort isDebugOverlay component_entity).
  unfold HitTest.rankedComponents, kept.
  rewrite map_rev, rev_involutive. reflexivity.
Qed.

Lemma elem_of_rev_remove_dups (l : list Entity) e :
  e ∈ rev (remove_dups l) <-> e ∈ l.
Proof.
  rewrite <- (elem_of_remove_dups l e), !list_elem_of_In.
  symmetry. apply List.in_rev.
Qed.

Lemma elem_of_kept ents e :
  e ∈ kept ents
  <-> exists c, c ∈ sort ents /\ isDebugOverlay c = true
                /\ component_entity c = e.
Proof.
  unfold kept. rewrite list_elem_of_In, List.in_map_iff. split.
  - intros (c & <- & Hc). apply List.filter_In in Hc as [Hc Hd].
    exists c. rewrite list_elem_of_In. auto.
  - intros (c & Hc & Hd & <-). exists c. split; [reflexivity |].
    apply List.filter_In. rewrite list_elem_of_In in Hc. auto.
Qed.

Lemma elem_of_entsUnderCursor rootEnt worldPos e :
  e ∈ entsUnderCursor rootEnt worldPos
  <-> e ∈ rootEnt :: descendants rootEnt /\ underCursor worldPos e = true.
Proof.
  unfold entsUnderCursor, HitTest.entsUnderCursor. fold underCursor.
  rewrite !list_elem_of_In. apply List.filter_In.
Qed.

Lemma NoDup_rev_remove_dups (l : list Entity) :
  NoDup (rev (remove_dups l)).
Proof.
  rewrite rev_alt. change (NoDup (reverse (remove_dups l))).
  rewrite reverse_Permutation. apply NoDup_remove_dups.
Qed.

(** X8.  The hook never returns an entity twice, whatever the tree walk
    and the draw-order sort answer. *)
Theorem result_lists_no_entity_twice rootEnt worldPos :
  NoDup (useEntitiesAtPoint rootEnt worldPos).
Proof.
  destruct (Nat.lt_ge_cases (length (entsUnderCursor rootEnt worldPos)) 2)
    as [Hlt | Hge].
  - rewrite short_result by exact Hlt.
    destruct (entsUnderCursor rootEnt worldPos) as [| a [| b l]];
      simpl in Hlt; [constructor | | lia].
    apply NoDup_singleton.
  - rewrite ranked_result by exact Hge. apply NoDup_rev_remove_dups.
Qed.

(** X9.  With two or more entities under the point, an entity is
    returned exactly when the draw order of the matched entities holds a
    component of it that [isDebugOverlay] accepts. *)
Theorem ranked_result_members rootEnt worldPos e :
  (2 <= length (entsUnderCursor rootEnt worldPos))%nat ->
  e ∈ useEntitiesAtPoint rootEnt worldPos
  <-> exists c,
        c ∈ sort (entsUnderCursor rootEnt worldPos)
        /\ isDebugOverlay c = true /\ component_entity c = e.
Proof.
  intros Hge. rewrite ranked_result by exact Hge.
  rewrite elem_of_rev_remove_dups. apply elem_of_kept.
Qed.

(** X10.  When the draw-order sort answers only with components of the
    entities it is given, every entity the hook returns is the root or
    one of its descendants and has a geometry component whose shape
    contains the point, taken into the entity's local space. *)
Theorem returned_entities_are_under_the_point rootEnt worldPos :
  let matched :=
    List.filter
      (fun ent =>
         match getComponent_Geometry ent with
         | Some geometry =>
             containsPoint geometry (worldToLocal ent worldPos)
         | None => false
         end)
      (rootEnt :: descendants rootEnt) in
  forallb (fun c => bool_decide (component_entity c ∈ matched))
    (sort matched) = true ->
  Forall
    (fun e =>
       e ∈ rootEnt :: descendants rootEnt
       /\ exists geometry,
            getComponent_Geometry e = Some geometry
            /\ containsPoint geometry (worldToLocal e worldPos) = true)
    (useEntitiesAtPoint rootEnt worldPos).
Proof.
  intros matched Hown.
  assert (Hunder : entsUnderCursor rootEnt worldPos = matched)
    by reflexivity.
  assert (Hmatched : forall e,
             e ∈ matched ->
             e ∈ rootEnt :: descendants rootEnt
             /\ exists geometry,
                  getComponent_Geometry e = Some geometry
                  /\ containsPoint geometry (worldToLocal e worldPos)
                     = true).
  { intros e He. unfold matched in He.
    rewrite list_elem_of_In, List.filter_In in He.
    destruct He as [Hin Hm]. split; [apply list_elem_of_In, Hin |].
    destruct (getComponent_Geometry e) as [geometry |];
      [| discriminate].
    exists geometry. auto. }
  apply List.Forall_forall. intros e He.
  apply list_elem_of_In in He. apply Hmatched.
  destruct (Nat.lt_ge_cases (length (entsUnderCursor rootEnt worldPos)) 2)
    as [Hlt | Hge].
  - rewrite short_result in He by exact Hlt. rewrite <- Hunder. exact He.
  - rewrite ranked_result in He by exact Hge.
    apply elem_of_rev_remove_dups, elem_of_kept in He
      as (c & Hc & _ & <-).
    rewrite Hunder in Hc.
    rewrite List.forallb_forall in Hown.
    apply list_elem_of_In in Hc. apply Hown in Hc.
    apply bool_decide_eq_true in Hc. exact Hc.
Qed.

(** X11.  When, besides, the tree walk lists no matching entity twice
    and every matching entity owns a component that [isDebugOverlay]
    accepts, the hook returns the matching entities, each once, in some
    order: none is lost and none is added. *)
Theorem result_permutes_matches rootEnt worldPos :
  NoDup (entsUnderCursor rootEnt worldPos) ->
  forallb
    (fun c => bool_decide
                (component_entity c ∈ entsUnderCursor rootEnt worldPos))
    (sort (entsUnderCursor rootEnt worldPos)) = true ->
  forallb
    (fun e => existsb
                (fun c => isDebugOverlay c
                          && bool_decide (component_entity c = e))
                (sort (entsUnderCursor rootEnt worldPos)))
    (entsUnderCursor rootEnt worldPos) = true ->
  useEntitiesAtPoint rootEnt worldPos
  ≡ₚ entsUnderCursor rootEnt worldPos.
Proof.
  intros Hnd Hown Hall.
  destruct (Nat.lt_ge_cases (length (entsUnderCursor rootEnt worldPos)) 2)
    as [Hlt | Hge].
  - rewrite short_result by exact Hlt. reflexivity.
  - rewrite ranked_result by exact Hge.
    apply NoDup_Permutation.
    + apply NoDup_rev_remove_dups.
    + exact Hnd.
    + intros e. rewrite elem_of_rev_remove_dups, elem_of_kept. split.
      * intros (c & Hc & _ & <-).
        rewrite List.forallb_forall in Hown.
        apply list_elem_of_In in Hc. apply Hown in Hc.
        apply bool_decide_eq_true in Hc. exact Hc.
      * intros He. rewrite List.forallb_forall in Hall.
        apply list_elem_of_In in He. apply Hall in He.
        apply List.existsb_exists in He as (c & Hc & Hd).
        apply andb_true_iff in Hd as [Hd Heq].
        apply bool_decide_eq_true in Heq.
        exists c. rewrite list_elem_of_In. auto.
Qed.

End HitTestMore.

Lemma ranked_result_members_witness :
  2%nat ∈ HitTest.world_entitiesAtPoint (HitTest.squares) 3 0%nat
            (10, 10)
  <-> exists c,
        c ∈ HitTest.world_sort (HitTest.squares)
              (HitTest.under (HitTest.squares) (10, 10))
        /\ HitTest.debugOverlay c = true /\ HitTest.owner c = 2%nat.
Proof.
  apply (ranked_result_members
           (HitTest.world_descendants (HitTest.squares) 3)
           (HitTest.world_getGeometry (HitTest.squares))
           (HitTest.world_toLocal (HitTest.squares))
           HitTest.rect_contains
           (HitTest.world_sort (HitTest.squares))
           HitTest.debugOverlay HitTest.owner 0%nat (10, 10) 2%nat).
  vm_compute. lia.
Defined.

Lemma returned_entities_are_under_the_point_witness :
  Forall
    (fun e =>
       e ∈ 0%nat :: HitTest.world_descendants HitTest.squares_apart 3 0%nat
       /\ exists geometry,
            HitTest.world_getGeometry HitTest.squares_apart e
            = Some geometry
            /\ HitTest.rect_contains geometry
                 (HitTest.world_toLocal HitTest.squares_apart e (210, 10))
               = true)
    (HitTest.world_entitiesAtPoint HitTest.squares_apart 3 0%nat (210, 10)).
Proof.
  apply (returned_entities_are_under_the_point
           (HitTest.world_descendants HitTest.squares_apart 3)
           (HitTest.world_getGeometry HitTest.squares_apart)
           (HitTest.world_toLocal HitTest.squares_apart)
           HitTest.rect_contains
           (HitTest.world_sort HitTest.squares_apart)
           HitTest.debugOverlay HitTest.owner 0%nat (210, 10)).
  vm_compute. reflexivity.
Defined.

Lemma result_permutes_matches_witness :
  HitTest.world_entitiesAtPoint (HitTest.squares) 3 0%nat (10, 10)
  ≡ₚ HitTest.under (HitTest.squares) (10, 10).
Proof.
  apply (result_permutes_matches
           (HitTest.world_descendants (HitTest.squares) 3)
           (HitTest.world_getGeometry (HitTest.squares))
           (HitTest.world_toLocal (HitTest.squares))
           HitTest.rect_contains
           (HitTest.world_sort (HitTest.squares))
           HitTest.debugOverlay HitTest.owner 0%nat (10, 10)).
  - vm_compute. repeat constructor; set_solver.
  - vm_compute. reflexivity.
  - vm_compute. reflexivity.
Defined.

(** ** More on the keyboard *)

Lemma processKeydown_pressed event st :
  Keyboard.pressed (Keyboard.processKeydown event st)
  = if Keyboard.repeat event then Keyboard.pressed st
    else {[ Keyboard.key event ]} ∪ Keyboard.pressed st.
Proof.
  unfold Keyboard.processKeydown.
  destruct st as [first pending prevent keys ls tr],
    event as [k [|]]; destruct first, prevent; reflexivity.
Qed.

Lemma processKeydown_listeners event st :
  Keyboard.listeners (Keyboard.processKeydown event st)
  = Keyboard.listeners st.
Proof.
  unfold Keyboard.processKeydown.
  destruct st as [first pending prevent keys ls tr],
    event as [k [|]]; destruct first, prevent; reflexivity.
Qed.

Lemma processKeyup_pressed event st :
  Keyboard.pressed (Keyboard.processKeyup event st)
  = if Keyboard.repeat event then Keyboard.pressed st
    else Keyboard.pressed st ∖ {[ Keyboard.key event ]}.
Proof.
  unfold Keyboard.processKeyup. destruct (Keyboard.repeat event);
    reflexivity.
Qed.

Lemma processKeyup_listeners event st :
  Keyboard.listeners (Keyboard.processKeyup event st)
  = Keyboard.listeners st.
Proof.
  unfold Keyboard.processKeyup. destruct (Keyboard.repeat event);
    reflexivity.
Qed.

Lemma run_cons st a acts :
  Keyboard.run st (a :: acts) = Keyboard.run (Keyboard.act st a) acts.
Proof. reflexivity. Qed.

Lemma act_listeners_no_hook st a :
  Keyboard.is_hook a = false ->
  Keyboard.listeners (Keyboard.act st a) = Keyboard.listeners st.
Proof.
  destruct a; simpl; try discriminate; intros _; try reflexivity.
  - destruct (bool_decide _); [apply processKeydown_listeners |].
    reflexivity.
  - destruct (bool_decide _); [apply processKeyup_listeners |].
    reflexivity.
Qed.

(** X12.  While both listeners are registered and no hook fires, the
    [pressed] set follows the events: a key is in it exactly when the
    last keydown or keyup of that key that was not a repeat was a
    keydown (or, with no such event, when it was in the set before). *)
Theorem pressed_follows_key_events (st : Keyboard.state)
    (acts : list Keyboard.action) (k : string) :
  Keyboard.hearing st ->
  forallb (fun a => negb (Keyboard.is_hook a)) acts = true ->
  k ∈ Keyboard.pressed (Keyboard.run st acts)
  <-> Keyboard.pressed_after k
        (bool_decide (k ∈ Keyboard.pressed st)) acts = true.
Proof.
  revert st. induction acts as [| a acts IH]; intros st Hhear Hacts.
  - simpl. symmetry. apply bool_decide_eq_true.
  - simpl in Hacts. apply andb_true_iff in Hacts as [Ha Hacts].
    apply negb_true_iff in Ha.
    rewrite run_cons, IH; [| | exact Hacts].
    2: { unfold Keyboard.hearing.
         rewrite (act_listeners_no_hook st a Ha). exact Hhear. }
    destruct Hhear as [Hdown Hup].
    destruct a as [| | event | event | handler | u d l r];
      simpl in Ha; try discriminate; simpl; try reflexivity.
    + rewrite (bool_decide_eq_true_2 _ Hdown).
      rewrite processKeydown_pressed.
      destruct (Keyboard.repeat event); simpl; [reflexivity |].
      destruct (bool_decide (Keyboard.key event = k)) eqn:Hk.
      * apply bool_decide_eq_true in Hk.
        rewrite bool_decide_eq_true_2 by set_solver. reflexivity.
      * apply bool_decide_eq_false in Hk.
        replace (bool_decide
                   (k ∈ {[ Keyboard.key event ]} ∪ Keyboard.pressed st))
          with (bool_decide (k ∈ Keyboard.pressed st));
          [reflexivity |].
        apply bool_decide_ext. set_solver.
    + rewrite (bool_decide_eq_true_2 _ Hup).
      rewrite processKeyup_pressed.
      destruct (Keyboard.repeat event); simpl; [reflexivity |].
      destruct (bool_decide (Keyboard.key event = k)) eqn:Hk.
      * apply bool_decide_eq_true in Hk.
        rewrite bool_decide_eq_false_2 by set_solver. reflexivity.
      * apply bool_decide_eq_false in Hk.
        replace (bool_decide
                   (k ∈ Keyboard.pressed st ∖ {[ Keyboard.key event ]}))
          with (bool_decide (k ∈ Keyboard.pressed st));
          [reflexivity |].
        apply bool_decide_ext. set_solver.
Qed.

(** X13.  The first keydown that reaches the component, repeat or not,
    runs every pending first-key handler once, in the order of their
    registration, marks the first key as happened and empties the
    pending list. *)
Theorem first_keydown_runs_pending_handlers (event : Keyboard.KeyboardEvent)
    (st : Keyboard.state) :
  Keyboard.firstKeyHasHappened st = false ->
  let st' := Keyboard.processKeydown event st in
  exists es,
    Keyboard.trace st' = Keyboard.trace st ++ es
    /\ Keyboard.first_key_runs es
       = map Keyboard.RunFirstKeyHandler
           (Keyboard.pendingFirstKeyHandlers st)
    /\ Keyboard.firstKeyHasHappened st' = true
    /\ Keyboard.pendingFirstKeyHandlers st' = [].
Proof.
  intros Hfirst st'. unfold st', Keyboard.processKeydown.
  assert (Hall : forall hs,
             Keyboard.first_key_runs (map Keyboard.RunFirstKeyHandler hs)
             = map Keyboard.RunFirstKeyHandler hs).
  { induction hs as [| h hs IH]; simpl; [| rewrite IH]; reflexivity. }
  destruct st as [first pending prevent keys ls tr],
    event as [k [|]]; simpl in Hfirst; subst first; destruct prevent;
    simpl.
  - exists (Keyboard.PreventDefault
            :: map Keyboard.RunFirstKeyHandler pending).
    rewrite <- app_assoc. simpl. rewrite Hall. auto.
  - exists (map Keyboard.RunFirstKeyHandler pending). rewrite Hall. auto.
  - exists (Keyboard.PreventDefault
            :: map Keyboard.RunFirstKeyHandler pending).
    rewrite <- app_assoc. simpl. rewrite Hall. auto.
  - exists (map Keyboard.RunFirstKeyHandler pending). rewrite Hall. auto.
Qed.

Lemma act_after_first_key st a :
  Keyboard.firstKeyHasHappened st = true ->
  Keyboard.firstKeyHasHappened (Keyboard.act st a) = true
  /\ Keyboard.first_key_runs (Keyboard.trace (Keyboard.act st a))
     = Keyboard.first_key_runs (Keyboard.trace st).
Proof.
  intros Hfirst. unfold Keyboard.first_key_runs.
  destruct st as [first pending prevent keys ls tr].
  simpl in Hfirst. subst first.
  destruct a as [| | event | event | handler | u d l r]; simpl.
  - unfold Keyboard.onEnabled_callback, Keyboard.addEventListener.
    repeat match goal with
           | |- context [bool_decide ?P] => destruct (bool_decide P)
           end; simpl; rewrite !List.filter_app, !app_nil_r; auto.
  - rewrite !List.filter_app, !app_nil_r. auto.
  - destruct (bool_decide _); [| auto].
    unfold Keyboard.processKeydown.
    destruct event as [k [|]], prevent; simpl;
      rewrite ?List.filter_app, ?app_nil_r; auto.
  - destruct (bool_decide _); [| auto].
    unfold Keyboard.processKeyup.
    destruct event as [k [|]]; simpl;
      rewrite ?List.filter_app, ?app_nil_r; auto.
  - auto.
  - auto.
Qed.

(** X14.  Once the first key has happened, nothing that happens to the
    component runs a first-key handler again: a handler registered with
    [useFirstKey] after the first key stays pending and never runs. *)
Theorem no_first_key_handler_runs_after_first_key (st : Keyboard.state)
    (acts : list Keyboard.action) :
  Keyboard.firstKeyHasHappened st = true ->
  Keyboard.first_key_runs (Keyboard.trace (Keyboard.run st acts))
  = Keyboard.first_key_runs (Keyboard.trace st)
  /\ Keyboard.firstKeyHasHappened (Keyboard.run st acts) = true.
Proof.
  revert st. induction acts as [| a acts IH]; intros st Hfirst.
  - split; [reflexivity | exact Hfirst].
  - rewrite run_cons.
    destruct (act_after_first_key st a Hfirst) as [Hfirst' Hruns].
    destruct (IH _ Hfirst') as [IHruns IHfirst].
    rewrite IHruns, Hruns. split; [reflexivity | exact IHfirst].
Qed.

Lemma pressed_follows_key_events_witness :
  "w"%string
  ∈ Keyboard.pressed
      (Keyboard.run (Keyboard.onEnabled_callback Keyboard.initial)
         [Keyboard.Keydown (Keyboard.mkEvent "w" false);
          Keyboard.Keyup (Keyboard.mkEvent "a" false);
          Keyboard.Keyup (Keyboard.mkEvent "w" true)])
  <-> Keyboard.pressed_after "w"
        (bool_decide
           ("w"%string
            ∈ Keyboard.pressed
                (Keyboard.onEnabled_callback Keyboard.initial)))
        [Keyboard.Keydown (Keyboard.mkEvent "w" false);
         Keyboard.Keyup (Keyboard.mkEvent "a" false);
         Keyboard.Keyup (Keyboard.mkEvent "w" true)] = true.
Proof.
  apply pressed_follows_key_events.
  - split; vm_compute; set_solver.
  - reflexivity.
Defined.

Lemma first_keydown_runs_pending_handlers_witness :
  exists es,
    Keyboard.trace
      (Keyboard.processKeydown (Keyboard.mkEvent "w" true)
         (Keyboard.useFirstKey 2 (Keyboard.useFirstKey 1 Keyboard.initial)))
    = Keyboard.trace
        (Keyboard.useFirstKey 2 (Keyboard.useFirstKey 1 Keyboard.initial))
      ++ es
    /\ Keyboard.first_key_runs es
       = map Keyboard.RunFirstKeyHandler
           (Keyboard.pendingFirstKeyHandlers
              (Keyboard.useFirstKey 2
                 (Keyboard.useFirstKey 1 Keyboard.initial)))
    /\ Keyboard.firstKeyHasHappened
         (Keyboard.processKeydown (Keyboard.mkEvent "w" true)
            (Keyboard.useFirstKey 2
               (Keyboard.useFirstKey 1 Keyboard.initial))) = true
    /\ Keyboard.pendingFirstKeyHandlers
         (Keyboard.processKeydown (Keyboard.mkEvent "w" true)
            (Keyboard.useFirstKey 2
               (Keyboard.useFirstKey 1 Keyboard.initial))) = [].
Proof.
  apply (first_keydown_runs_pending_handlers (Keyboard.mkEvent "w" true)
           (Keyboard.useFirstKey 2
              (Keyboard.useFirstKey 1 Keyboard.initial))).
  reflexivity.
Defined.

Lemma no_first_key_handler_runs_after_first_key_witness :
  let st := Keyboard.processKeydown (Keyboard.mkEvent "w" false)
              (Keyboard.onEnabled_callback Keyboard.initial) in
  let acts := [Keyboard.UseFirstKey 3;
               Keyboard.Keydown (Keyboard.mkEvent "a" false);
               Keyboard.Keyup (Keyboard.mkEvent "a" false)] in
  Keyboard.first_key_runs (Keyboard.trace (Keyboard.run st acts))
  = Keyboard.first_key_runs (Keyboard.trace st)
  /\ Keyboard.firstKeyHasHappened (Keyboard.run st acts) = true.
Proof.
  apply no_first_key_handler_runs_after_first_key. reflexivity.
Defined.

Lemma filter_out_absent (x : string * Keyboard.listener) l :
  x ∉ l -> List.filter (fun y => negb (bool_decide (y = x))) l = l.
Proof.
  induction l as [| y l IH]; intros Hx; simpl; [reflexivity |].
  rewrite bool_decide_eq_false_2 by set_solver. simpl.
  rewrite IH by set_solver. reflexivity.
Qed.

Lemma elem_of_filter_out (x y : string * Keyboard.listener) l :
  y ∈ List.filter (fun z => negb (bool_decide (z = x))) l
  <-> y ∈ l /\ y <> x.
Proof.
  rewrite !list_elem_of_In, List.filter_In, negb_true_iff.
  rewrite bool_decide_eq_false. reflexivity.
Qed.

Lemma addEventListener_listeners type l st x :
  x ∈ Keyboard.listeners (Keyboard.addEventListener type l st)
  <-> x ∈ Keyboard.listeners st \/ x = (type, l).
Proof.
  unfold Keyboard.addEventListener.
  destruct (bool_decide ((type, l) ∈ Keyboard.listeners st)) eqn:Hin; simpl.
  - apply bool_decide_eq_true in Hin. set_solver.
  - set_solver.
Qed.

Lemma addEventListener_present type l st :
  (type, l) ∈ Keyboard.listeners st ->
  Keyboard.listeners (Keyboard.addEventListener type l st)
  = Keyboard.listeners st.
Proof.
  intros Hin. unfold Keyboard.addEventListener.
  rewrite (bool_decide_eq_true_2 _ Hin). reflexivity.
Qed.

(** X15.  After [onEnabled] both listeners are registered, and firing
    [onEnabled] a second time leaves the listeners of [document] as the
    first left them: no listener is registered twice. *)
Theorem enabling_twice_registers_once (st : Keyboard.state) :
  Keyboard.hearing (Keyboard.onEnabled_callback st)
  /\ Keyboard.listeners
       (Keyboard.onEnabled_callback (Keyboard.onEnabled_callback st))
     = Keyboard.listeners (Keyboard.onEnabled_callback st).
Proof.
  assert (Hhear : Keyboard.hearing (Keyboard.onEnabled_callback st)).
  { unfold Keyboard.hearing, Keyboard.onEnabled_callback.
    rewrite !addEventListener_listeners. auto. }
  split; [exact Hhear |]. destruct Hhear as [Hdown Hup].
  unfold Keyboard.onEnabled_callback at 1.
  rewrite addEventListener_present.
  - apply addEventListener_present. exact Hdown.
  - apply addEventListener_listeners. left. exact Hup.
Qed.

(** X16.  After [onDisabled] neither listener is registered, whatever
    was registered before, and every other listener of [document] is
    still there; firing [onEnabled] and then [onDisabled] on a component
    whose listeners were not registered gives back the listeners
    [document] had. *)
Theorem disabling_unregisters_both (st : Keyboard.state) :
  Keyboard.deaf (Keyboard.onDisabled_callback st)
  /\ (forall x,
        x <> ("keydown"%string, Keyboard.processKeydown_ref) ->
        x <> ("keyup"%string, Keyboard.processKeyup_ref) ->
        x ∈ Keyboard.listeners (Keyboard.onDisabled_callback st)
        <-> x ∈ Keyboard.listeners st)
  /\ (Keyboard.deaf st ->
      Keyboard.listeners
        (Keyboard.onDisabled_callback (Keyboard.onEnabled_callback st))
      = Keyboard.listeners st).
Proof.
  split; [| split].
  - unfold Keyboard.deaf, Keyboard.onDisabled_callback,
      Keyboard.removeEventListener. simpl.
    rewrite !elem_of_filter_out. split; intros H; tauto.
  - intros x Hd Hu.
    unfold Keyboard.onDisabled_callback, Keyboard.removeEventListener.
    simpl. rewrite !elem_of_filter_out. tauto.
  - intros [Hd Hu].
    unfold Keyboard.onDisabled_callback, Keyboard.removeEventListener,
      Keyboard.onEnabled_callback, Keyboard.addEventListener.
    rewrite (bool_decide_eq_false_2 _ Hd). simpl.
    rewrite bool_decide_eq_false_2.
    2: { rewrite elem_of_app, list_elem_of_singleton.
         intros [Hin | Heq]; [exact (Hu Hin) | discriminate]. }
    simpl. rewrite !List.filter_app, (filter_out_absent _ _ Hd).
    cbn [List.filter].
    rewrite (bool_decide_eq_true_2 _ eq_refl).
    rewrite (bool_decide_eq_false_2
               (("keyup"%string, Keyboard.processKeyup_ref)
                = ("keydown"%string, Keyboard.processKeydown_ref)))
      by discriminate.
    cbn [negb]. rewrite (filter_out_absent _ _ Hu). cbn [List.filter].
    rewrite (bool_decide_eq_true_2 _ eq_refl). cbn [negb].
    rewrite !app_nil_r. reflexivity.
Qed.

Lemma disabling_unregisters_both_witness :
  Keyboard.listeners
    (Keyboard.onDisabled_callback
       (Keyboard.onEnabled_callback Keyboard.initial))
  = Keyboard.listeners Keyboard.initial.
Proof.
  apply (disabling_unregisters_both Keyboard.initial).
  split; vm_compute; set_solver.
Defined.

Section vectorFromKeysMore.
Variable toUpperCase : string -> string.

Let held := Keyboard.held toUpperCase.

(** X18.  The magnitude of the vector is [0] or [1], and it is [0]
    exactly when no key is held, or only the up and the down key, or
    only the left and the right key: with all four keys held the vector
    is not zero. *)
Theorem magnitude_zero_exactly_when_keys_cancel (st : Keyboard.state)
    (upKey downKey leftKey rightKey : string) :
  let u := held (Keyboard.pressed st) upKey in
  let d := held (Keyboard.pressed st) downKey in
  let l := held (Keyboard.pressed st) leftKey in
  let r := held (Keyboard.pressed st) rightKey in
  let v := Keyboard.vectorFromKeys toUpperCase st upKey downKey leftKey
             rightKey in
  (Keyboard.magnitude v = 0 \/ Keyboard.magnitude v = 1)
  /\ (Keyboard.magnitude v = 0
      <-> u = d /\ l = r /\ (u && l = false)).
Proof.
  intros u d l r v. unfold v, Keyboard.vectorFromKeys.
  fold held. fold u d l r.
  destruct u, d, l, r; simpl; split; auto;
    split; try (intros H; discriminate H);
    try (intros (H1 & H2 & H3); discriminate); auto.
Qed.

(** X19.  When a vertical and a horizontal key are held, the vector is
    the diagonal of magnitude [1] in which up wins over down and right
    wins over left, whatever else is held. *)
Theorem diagonals_prefer_up_and_right (st : Keyboard.state)
    (upKey downKey leftKey rightKey : string) :
  let u := held (Keyboard.pressed st) upKey in
  let d := held (Keyboard.pressed st) downKey in
  let l := held (Keyboard.pressed st) leftKey in
  let r := held (Keyboard.pressed st) rightKey in
  (u || d) && (l || r) = true ->
  Keyboard.vectorFromKeys toUpperCase st upKey downKey leftKey rightKey
  = Keyboard.mkVector
      (if u then (if r then -1 else 5) else (if r then 1 else 3)) 1.
Proof.
  intros u d l r. unfold Keyboard.vectorFromKeys.
  fold held. fold u d l r.
  destruct u, d, l, r; simpl; intros Hheld;
    try discriminate; reflexivity.
Qed.

End vectorFromKeysMore.

Lemma diagonals_prefer_up_and_right_witness :
  Keyboard.vectorFromKeys Keyboard.upper
    (Keyboard.set_pressed {[ "w"%string; "s"%string; "a"%string ]}
       Keyboard.initial) "w" "s" "a" "d"
  = Keyboard.mkVector 5 1.
Proof.
  etransitivity.
  - apply (diagonals_prefer_up_and_right Keyboard.upper
             (Keyboard.set_pressed {[ "w"%string; "s"%string; "a"%string ]}
                Keyboard.initial) "w" "s" "a" "d").
    vm_compute. reflexivity.
  - vm_compute. reflexivity.
Defined.

(** ** More on Tiled *)

Lemma find_is_head_of_filter {A : Type} (f : A -> bool) (l : list A) :
  List.find f l = head (List.filter f l).
Proof.
  induction l as [| x l IH]; simpl; [reflexivity |].
  destruct (f x); [reflexivity | exact IH].
Qed.

Lemma has_tag_iff tagName e :
  Tiled.has_tag tagName e = true
  <-> exists a c, e = Tiled.Node tagName a c.
Proof.
  destruct e as [s | t a c]; simpl.
  - split; [discriminate | intros (a & c & Heq); discriminate].
  - rewrite bool_decide_eq_true. split.
    + intros ->. eauto.
    + intros (a' & c' & [= -> _ _]). reflexivity.
Qed.

(** X20.  [getElementByTagName] answers with the first element that
    [getElementsByTagName] lists, and with [null] exactly when that list
    is empty; the list holds exactly the children of the parent that are
    elements of the given tag name, never a text child. *)
Theorem getElementByTagName_is_first_of_getElementsByTagName
    (parent : Tiled.Element) (tagName : string) :
  Tiled.getElementByTagName parent tagName
  = head (Tiled.getElementsByTagName parent tagName)
  /\ (Tiled.getElementByTagName parent tagName = None
      <-> Tiled.getElementsByTagName parent tagName = [])
  /\ (forall e,
        e ∈ Tiled.getElementsByTagName parent tagName
        <-> exists cs a c,
              Tiled.children_of parent = Some cs /\ e ∈ cs
              /\ e = Tiled.Node tagName a c).
Proof.
  assert (Hhead : Tiled.getElementByTagName parent tagName
                  = head (Tiled.getElementsByTagName parent tagName)).
  { rewrite getElementByTagName_first_child.
    destruct parent as [s | t a [cs |]]; try reflexivity.
    apply find_is_head_of_filter. }
  split; [exact Hhead |]. split.
  - rewrite Hhead.
    destruct (Tiled.getElementsByTagName parent tagName); simpl;
      split; intros Heq; try reflexivity; discriminate.
  - intros e. destruct parent as [s | t a [cs |]]; simpl.
    + split; [intros Hin; inversion Hin |].
      intros (cs & a & c & Hcs & _); discriminate.
    + rewrite list_elem_of_In, List.filter_In, has_tag_iff,
        <- list_elem_of_In. split.
      * intros (Hin & a' & c' & ->). exists cs, a', c'. auto.
      * intros (cs' & a' & c' & [= <-] & Hin & ->). eauto.
    + split; [intros Hin; inversion Hin |].
      intros (cs & a' & c & Hcs & _); discriminate.
Qed.

Lemma split_length sep s :
  length (Tiled.split sep s) = Datatypes.S (Tiled.occurrences sep s).
Proof.
  induction s as [| c rest IH]; simpl; [reflexivity |].
  destruct (Ascii.eqb c sep); simpl.
  - rewrite IH. reflexivity.
  - destruct (Tiled.split sep rest) as [| cell cells]; simpl in *;
      [discriminate | exact IH].
Qed.

Section TiledMore.
Variable Number : string -> Tiled.number.
Context {Grid SpriteSheet : Type}.
Variable Grid_new :
  Tiled.number -> Tiled.number -> Tiled.number -> completion Grid.
Variable Grid_setData : list Tiled.number -> Grid -> completion Grid.
Variable SpriteSheet_new :
  string -> Tiled.number -> Tiled.number -> SpriteSheet.
Variable Number_of_value : option Tiled.value -> Tiled.number.
Variable truthy : option Tiled.value -> bool.

Let Tileset := Tiled.Tileset SpriteSheet_new.
Let Layer := Tiled.Layer Number Grid_new Grid_setData.
Let makeTiledObject :=
  Tiled.makeTiledObject Number Number_of_value truthy.

(** X21.  Whenever [Tiled.Tileset] returns, the sprite sheet was made
    from the [source] of the first [image] child and from the tileset's
    [tilewidth] and [tileheight], with [0] in the place of a [NaN]: the
    tile size handed to [SpriteSheet] is never [NaN]. *)
Theorem tileset_tile_size_is_never_NaN (data : Tiled.Element)
    (api : @Tiled.TilesetApi SpriteSheet) :
  Tileset data = Normal api ->
  exists image url tileWidth tileHeight,
    Tiled.first_child data "image" = Some image
    /\ Tiled.attributes_of image !! "source"%string
       = Some (Tiled.VString url)
    /\ Tiled.attributes_of data !! "tilewidth"%string
       = Some (Tiled.VNumber tileWidth)
    /\ Tiled.attributes_of data !! "tileheight"%string
       = Some (Tiled.VNumber tileHeight)
    /\ Tiled.spriteSheet api
       = SpriteSheet_new url (Tiled.or_zero tileWidth)
           (Tiled.or_zero tileHeight)
    /\ Tiled.or_zero tileWidth <> Tiled.NaN
    /\ Tiled.or_zero tileHeight <> Tiled.NaN.
Proof.
  intros Hret.
  destruct (tileset_ok_or_problem data) as [Hok | [m Hbad]].
  - destruct Hok as [a cs image Hc [url Hs] [w Hw] [h Hh]].
    exists image, url, w, h.
    unfold Tileset, Tiled.Tileset in Hret.
    rewrite getElementByTagName_first_child, Hc in Hret.
    simpl in Hret. rewrite Hs, Hw, Hh in Hret.
    injection Hret as <-. simpl.
    repeat split; try assumption; try reflexivity.
    + destruct w; discriminate.
    + destruct h; discriminate.
  - apply (Tileset_problem_throws SpriteSheet_new) in Hbad.
    unfold Tileset in Hret. rewrite Hbad in Hret. discriminate.
Qed.

(** X22.  A csv layer gives [grid.setData] one cell more than there are
    commas in the text of its [data] element, whatever the text is: the
    array is never empty, and an empty [data] element gives one cell.
    The layer returns when [new Grid] and [grid.setData] return, with
    the grid [setData] answers. *)
Theorem layer_cells_are_commas_plus_one a c dataEl width height cs :
  a !! "width"%string = Some (Tiled.VNumber width) ->
  a !! "height"%string = Some (Tiled.VNumber height) ->
  Tiled.first_child (Tiled.Node "layer" a c) "data" = Some dataEl ->
  Tiled.attributes_of dataEl !! "encoding"%string
  = Some (Tiled.VString "csv") ->
  Tiled.children_of dataEl = Some cs ->
  exists cells,
    Layer (Tiled.Node "layer" a c)
    = (grid0 ← Grid_new width height (Tiled.Num 0);
       grid1 ← Grid_setData cells grid0;
       Normal
         {| Tiled.grid := grid1;
            Tiled.visible :=
              negb (bool_decide (a !! "visible"%string
                                 = Some (Tiled.VNumber (Tiled.Num 0)))) |})
    /\ length cells
       = Datatypes.S
           (Tiled.occurrences ","
              (Tiled.join " " (map Tiled.to_string cs))).
Proof.
  intros Hw Hh Hd He Hcs.
  exists (Tiled.numbers_of Number cs). split.
  - unfold Layer.
    rewrite (Layer_ok_value Number Grid_new Grid_setData a c dataEl
               width height Hw Hh Hd He), Hcs.
    reflexivity.
  - unfold Tiled.numbers_of. rewrite !length_map. apply split_length.
Qed.

(** X23.  [makeTiledObject] throws in one situation only: the object is
    an element without a [point], [ellipse] or [text] child whose first
    [polygon] child has no string as its [points] attribute.  A text
    node and every other element make it return. *)
Theorem makeTiledObject_throws_only_on_bad_polygon
    (object : Tiled.Element) :
  raises (makeTiledObject object)
  <-> Tiled.is_node object = true
      /\ Tiled.first_child object "point" = None
      /\ Tiled.first_child object "ellipse" = None
      /\ Tiled.first_child object "text" = None
      /\ exists polygon,
           Tiled.first_child object "polygon" = Some polygon
           /\ ~ Tiled.is_string
                  (Tiled.attributes_of polygon !! "points"%string).
Proof.
  unfold raises, makeTiledObject.
  destruct object as [s | t a c].
  - simpl. split.
    + intros [m Hm]. discriminate.
    + intros [Hnode _]. discriminate.
  - unfold Tiled.makeTiledObject.
    rewrite !getElementByTagName_first_child.
    destruct (Tiled.first_child (Tiled.Node t a c) "point") as [p |].
    { split; [intros [m Hm]; discriminate |].
      intros (_ & Hp & _). discriminate. }
    destruct (Tiled.first_child (Tiled.Node t a c) "ellipse") as [p |].
    { split; [intros [m Hm]; discriminate |].
      intros (_ & _ & Hp & _). discriminate. }
    destruct (Tiled.first_child (Tiled.Node t a c) "text") as [p |].
    { split; [intros [m Hm]; discriminate |].
      intros (_ & _ & _ & Hp & _). discriminate. }
    destruct (Tiled.first_child (Tiled.Node t a c) "polygon")
      as [polygon |].
    2: { split; [intros [m Hm]; discriminate |].
         intros (_ & _ & _ & _ & p & Hp & _). discriminate. }
    destruct (is_string_dec
                (Tiled.attributes_of polygon !! "points"%string))
      as [[pts Hpts] | Hno].
    + rewrite Hpts. split; [intros [m Hm]; discriminate |].
      intros (_ & _ & _ & _ & p & [= <-] & Hp).
      exfalso. apply Hp. exists pts. exact Hpts.
    + split.
      * intros _. repeat split. exists polygon. auto.
      * intros _. apply not_string_cases in Hno.
        destruct (Tiled.attributes_of polygon !! "points"%string)
          as [[n | s |] |]; try destruct Hno; eexists; reflexivity.
Qed.

(** X24.  A polygon object has one point more than there are spaces in
    the [points] attribute of its first [polygon] child, and is a
    polygon only if the object has no [point], [ellipse] or [text]
    child. *)
Theorem polygon_has_a_point_per_pair (object : Tiled.Element) points api :
  makeTiledObject object = Normal (Tiled.KindPolygon points api) ->
  exists polygon pairs,
    Tiled.first_child object "polygon" = Some polygon
    /\ Tiled.attributes_of polygon !! "points"%string
       = Some (Tiled.VString pairs)
    /\ length points = Datatypes.S (Tiled.occurrences " " pairs)
    /\ Tiled.first_child object "point" = None
    /\ Tiled.first_child object "ellipse" = None
    /\ Tiled.first_child object "text" = None.
Proof.
  unfold makeTiledObject. destruct object as [s | t a c];
    [discriminate |].
  unfold Tiled.makeTiledObject.
  rewrite !getElementByTagName_first_child.
  destruct (Tiled.first_child (Tiled.Node t a c) "point");
    [discriminate |].
  destruct (Tiled.first_child (Tiled.Node t a c) "ellipse");
    [discriminate |].
  destruct (Tiled.first_child (Tiled.Node t a c) "text");
    [discriminate |].
  destruct (Tiled.first_child (Tiled.Node t a c) "polygon")
    as [polygon |]; [| discriminate].
  destruct (Tiled.attributes_of polygon !! "points"%string)
    as [[n | pairs |] |] eqn:Hpts; try discriminate.
  intros [= <- _]. exists polygon, pairs.
  rewrite !length_map, split_length.
  repeat split; try reflexivity. exact Hpts.
Qed.

End TiledMore.

Lemma tileset_tile_size_is_never_NaN_witness :
  exists image url tileWidth tileHeight,
    Tiled.first_child (Tiled.demo_tileset_sized Tiled.NaN (Tiled.Num 16))
      "image" = Some image
    /\ Tiled.attributes_of image !! "source"%string
       = Some (Tiled.VString url)
    /\ Tiled.attributes_of
         (Tiled.demo_tileset_sized Tiled.NaN (Tiled.Num 16))
       !! "tilewidth"%string = Some (Tiled.VNumber tileWidth)
    /\ Tiled.attributes_of
         (Tiled.demo_tileset_sized Tiled.NaN (Tiled.Num 16))
       !! "tileheight"%string = Some (Tiled.VNumber tileHeight)
    /\ Tiled.spriteSheet
         (Tiled.mkTileset ("tiles.png"%string, Tiled.Num 0, Tiled.Num 16))
       = (url, Tiled.or_zero tileWidth, Tiled.or_zero tileHeight)
    /\ Tiled.or_zero tileWidth <> Tiled.NaN
    /\ Tiled.or_zero tileHeight <> Tiled.NaN.
Proof.
  apply (tileset_tile_size_is_never_NaN (fun url w h => (url, w, h))
           (Tiled.demo_tileset_sized Tiled.NaN (Tiled.Num 16))
           (Tiled.mkTileset
              ("tiles.png"%string, Tiled.Num 0, Tiled.Num 16))).
  reflexivity.
Defined.

Lemma layer_cells_are_commas_plus_one_witness :
  exists cells,
    Tiled.demo_Layer (Tiled.demo_layer "csv" "")
    = (grid0 ← Tiled.demo_Grid_new (Tiled.Num 2) (Tiled.Num 2)
                 (Tiled.Num 0);
       grid1 ← Tiled.demo_setData cells grid0;
       Normal
         {| Tiled.grid := grid1;
            Tiled.visible :=
              negb (bool_decide
                      (Tiled.attributes_of (Tiled.demo_layer "csv" "")
                       !! "visible"%string
                       = Some (Tiled.VNumber (Tiled.Num 0)))) |})
    /\ length cells
       = Datatypes.S
           (Tiled.occurrences ","
              (Tiled.join " " (map Tiled.to_string [Tiled.Text ""]))).
Proof.
  exact (layer_cells_are_commas_plus_one Tiled.Number_decimal
           Tiled.demo_Grid_new Tiled.demo_setData
           (<[ "width"%string := Tiled.VNumber (Tiled.Num 2) ]>
              (<[ "height"%string := Tiled.VNumber (Tiled.Num 2) ]> ∅))
           (Some [Tiled.Node "data"
                    (<[ "encoding"%string := Tiled.VString "csv" ]> ∅)
                    (Some [Tiled.Text ""])])
           (Tiled.Node "data"
              (<[ "encoding"%string := Tiled.VString "csv" ]> ∅)
              (Some [Tiled.Text ""]))
           (Tiled.Num 2) (Tiled.Num 2) [Tiled.Text ""]
           eq_refl eq_refl eq_refl eq_refl eq_refl).
Defined.

Lemma polygon_has_a_point_per_pair_witness :
  exists polygon pairs,
    Tiled.first_child Tiled.demo_triangle "polygon" = Some polygon
    /\ Tiled.attributes_of polygon !! "points"%string
       = Some (Tiled.VString pairs)
    /\ length
         [(Tiled.Num 0, Tiled.Num 0); (Tiled.Num 16, Tiled.Num 0);
          (Tiled.Num 8, Tiled.Num 12)]
       = Datatypes.S (Tiled.occurrences " " pairs)
    /\ Tiled.first_child Tiled.demo_triangle "point" = None
    /\ Tiled.first_child Tiled.demo_triangle "ellipse" = None
    /\ Tiled.first_child Tiled.demo_triangle "text" = None.
Proof.
  apply (polygon_has_a_point_per_pair Tiled.Number_decimal
           Tiled.demo_Number_of_value Tiled.demo_truthy
           Tiled.demo_triangle
           [(Tiled.Num 0, Tiled.Num 0); (Tiled.Num 16, Tiled.Num 0);
            (Tiled.Num 8, Tiled.Num 12)]
           {| Tiled.api_object := Tiled.demo_triangle;
              Tiled.api_id := Some (Tiled.VNumber (Tiled.Num 7));
              Tiled.api_name := None;
              Tiled.api_location := (Tiled.Num 32, Tiled.Num 64);
              Tiled.api_size := None;
              Tiled.api_properties := [] |}).
  vm_compute. reflexivity.
Defined.

(** ** The rest of the keyboard and of the canvas *)

(** X25.  A keyup that reaches the component always calls
    [event.preventDefault()], whatever the [preventDefault] option says;
    a keydown calls it exactly when the option is set. *)
Theorem keyup_always_prevents_default (event : Keyboard.KeyboardEvent)
    (st : Keyboard.state) :
  Keyboard.trace (Keyboard.processKeyup event st)
  = Keyboard.trace st ++ [Keyboard.PreventDefault]
  /\ exists es,
       Keyboard.trace (Keyboard.processKeydown event st)
       = Keyboard.trace st ++ es
       /\ (Keyboard.PreventDefault ∈ es
           <-> Keyboard.preventDefault st = true).
Proof.
  split; [apply processKeyup_effects |].
  assert (Hnone : forall hs,
             Keyboard.PreventDefault
             ∉ map Keyboard.RunFirstKeyHandler hs).
  { induction hs as [| h hs IH]; simpl; [set_solver |].
    intros Hin. apply elem_of_cons in Hin as [Heq | Hin];
      [discriminate | exact (IH Hin)]. }
  unfold Keyboard.processKeydown.
  destruct st as [first pending prevent keys ls tr],
    event as [k [|]]; destruct first, prevent; simpl.
  all: try (exists [Keyboard.PreventDefault]; split;
            [reflexivity | split; [reflexivity | set_solver]]).
  all: try (exists []; rewrite app_nil_r; split;
            [reflexivity | split; [set_solver | discriminate]]).
  all: try (exists (Keyboard.PreventDefault
                    :: map Keyboard.RunFirstKeyHandler pending);
            rewrite <- app_assoc; split;
            [reflexivity | split; [reflexivity | set_solver]]).
  all: exists (map Keyboard.RunFirstKeyHandler pending); split;
    [reflexivity | split; [intros Hin; destruct (Hnone _ Hin)
                          | discriminate]].
Qed.

Section CanvasConstructor.
Context {SceneObj : Type}.
Variable Scene_new : SceneObj.

(** X26.  A new canvas has exactly one scene: a scene that did not
    exist before, which is its root scene and its active scene; the
    scene objects that existed are untouched. *)
Theorem new_canvas_has_one_new_scene (h : gmap Canvas.Scene SceneObj) :
  let c := Canvas.constructor Scene_new h in
  Canvas.scenes c = {[ Canvas.rootScene c ]}
  /\ Canvas.activeScene c = Canvas.rootScene c
  /\ h !! Canvas.rootScene c = None
  /\ Canvas.store c !! Canvas.rootScene c = Some Scene_new
  /\ forall s o, h !! s = Some o -> Canvas.store c !! s = Some o.
Proof.
  simpl.
  assert (Hfresh : h !! fresh (dom h) = None).
  { apply not_elem_of_dom. apply is_fresh. }
  split; [set_solver |]. split; [reflexivity |].
  split; [exact Hfresh |]. split; [apply lookup_insert_eq |].
  intros s o Hs. rewrite lookup_insert_ne; [exact Hs |].
  intros Heq. rewrite <- Heq, Hfresh in Hs. discriminate.
Qed.

End CanvasConstructor.
